(** * flow-backend: order lifecycle of a digital-product shop

    A shallow embedding of [main.py]: the order table and its four
    queries, the request signer, the two gateway calls, and the HTTP
    handlers [/pay/create], [/flow/confirmation], [/flow/return] and
    [/download/{download_token}].

    Conventions of the embedding.
    - A Python [str] is a Rocq [string] holding its UTF-8 bytes, so that
      [s.encode()] is the identity and byte-wise comparison agrees with
      Python's comparison by code point.
    - A Python [int] is a [Z].
    - A handler is a computation over the mutable world (the [orders]
      table and the request's [BackgroundTasks] queue) that either
      returns a response or raises.
    - What the process cannot decide by itself is an explicit input: the
      gateway's answer to a request, the values drawn by [uuid.uuid4()],
      the clock, the existence of the product file.
    - [hmac.new(..., hashlib.sha256).hexdigest()], [str.lower] and
      Python's [str()] of a decoded JSON value belong to the Python
      library; they are parameters of the development. *)

From Stdlib Require Import ZArith NArith List String Ascii Bool Lia.
From Stdlib Require Import Permutation Sorted DecimalString.
Import ListNotations.

#[local] Set Warnings "-register-all".

Local Open Scope string_scope.
Local Open Scope Z_scope.

(* ================================================================== *)
(** ** Python values *)
(* ================================================================== *)

Module Py.

(** *** Strings *)

Definition byte (n : N) : ascii := ascii_of_N n.

(** Number of bytes taken by the whitespace character at the head of
    [s], or [0] when [s] does not start with one.  The characters are
    those of [str.isspace] (the class [\s] of [re] on [str] patterns):
    U+0009..000D, U+001C..0020, U+0085, U+00A0, U+1680, U+2000..200A,
    U+2028, U+2029, U+202F, U+205F, U+3000. *)
Definition ws_len (s : string) : nat :=
  match s with
  | EmptyString => 0
  | String c0 s1 =>
    let b0 := N_of_ascii c0 in
    if ((9 <=? b0) && (b0 <=? 13) || (28 <=? b0) && (b0 <=? 32))%N then 1
    else match s1 with
    | EmptyString => 0
    | String c1 s2 =>
      let b1 := N_of_ascii c1 in
      if ((b0 =? 194) && ((b1 =? 133) || (b1 =? 160)))%N then 2
      else match s2 with
      | EmptyString => 0
      | String c2 _ =>
        let b2 := N_of_ascii c2 in
        if ((b0 =? 225) && (b1 =? 154) && (b2 =? 128)
            || (b0 =? 226) && (b1 =? 128)
               && ((128 <=? b2) && (b2 <=? 138)
                   || (b2 =? 168) || (b2 =? 169) || (b2 =? 175))
            || (b0 =? 226) && (b1 =? 129) && (b2 =? 159)
            || (b0 =? 227) && (b1 =? 128) && (b2 =? 128))%N
        then 3 else 0
      end
    end
  end%nat.

Fixpoint drop (n : nat) (s : string) : string :=
  match n, s with
  | S n', String _ s' => drop n' s'
  | _, _ => s
  end.

(** [s.lstrip()]; the fuel is the length of [s]. *)
Fixpoint lstrip_fuel (fuel : nat) (s : string) : string :=
  match fuel with
  | O => s
  | S fuel' =>
    match ws_len s with
    | O => s
    | n => lstrip_fuel fuel' (drop n s)
    end
  end.

Definition lstrip (s : string) : string := lstrip_fuel (String.length s) s.

(** Does the whitespace run starting here reach the end of the string? *)
Fixpoint all_ws_fuel (fuel : nat) (s : string) : bool :=
  match fuel with
  | O => match s with EmptyString => true | _ => false end
  | S fuel' =>
    match s with
    | EmptyString => true
    | _ => match ws_len s with
           | O => false
           | n => all_ws_fuel fuel' (drop n s)
           end
    end
  end.

Definition all_ws (s : string) : bool := all_ws_fuel (String.length s) s.

(** [s.rstrip()]: cut at the first position from which only whitespace
    follows. *)
Fixpoint rstrip (s : string) : string :=
  match s with
  | EmptyString => EmptyString
  | String c s' => if all_ws s then EmptyString else String c (rstrip s')
  end.

(** [s.strip()] *)
Definition strip (s : string) : string := rstrip (lstrip s).

(** Truth value of a [str]: [bool(s)]. *)
Definition nonempty (s : string) : bool :=
  match s with EmptyString => false | _ => true end.

(** [os.path.basename] on a POSIX path: what follows the last slash. *)
Fixpoint has_slash (p : string) : bool :=
  match p with
  | EmptyString => false
  | String c p' => (c =? "/")%char || has_slash p'
  end.

Fixpoint basename (p : string) : string :=
  match p with
  | EmptyString => EmptyString
  | String _ p' => if has_slash p then basename p' else p
  end.

(** [str(z)] for an [int]. *)
Definition str_of_int (z : Z) : string := NilZero.string_of_int (Z.to_int z).

(** *** Exceptions and results *)

(** [HTTPException(status_code, detail)] is answered by the framework
    with that status; any other exception leaves the handler unhandled
    and is answered with 500. *)
Inductive exn : Type :=
| HTTPException (status_code : Z) (detail : string)
| PyError (cls : string).

Inductive result (A : Type) : Type :=
| Ok (a : A)
| Raise (e : exn).
Arguments Ok {A} a.
Arguments Raise {A} e.

Definition is_raise {A} (r : result A) : bool :=
  match r with Ok _ => false | Raise _ => true end.

(** *** Decoded JSON *)

(** What [resp.json()] or a request body decodes to.  A [dict] is kept
    as its items; its keys are distinct.  JSON numbers with a fraction
    or an exponent decode to [float] and are outside the model: the
    gateway's protocol has none. *)
Inductive json : Type :=
| JNull
| JBool (b : bool)
| JInt (z : Z)
| JStr (s : string)
| JList (l : list json)
| JDict (d : list (string * json)).

Fixpoint assoc {A} (k : string) (d : list (string * A)) : option A :=
  match d with
  | [] => None
  | (k', v) :: d' => if (k' =? k)%string then Some v else assoc k d'
  end.

(** [bool(v)] *)
Definition truthy (v : json) : bool :=
  match v with
  | JNull => false
  | JBool b => b
  | JInt z => negb (z =? 0)
  | JStr s => nonempty s
  | JList l => match l with [] => false | _ => true end
  | JDict d => match d with [] => false | _ => true end
  end.

(** [v.get(k, default)]: only a [dict] has the method. *)
Definition get (v : json) (k : string) (default : json) : result json :=
  match v with
  | JDict d => Ok (match assoc k d with Some x => x | None => default end)
  | _ => Raise (PyError "AttributeError")
  end.

(** [v[k]] with a [str] key. *)
Definition getitem (v : json) (k : string) : result json :=
  match v with
  | JDict d =>
    match assoc k d with Some x => Ok x | None => Raise (PyError "KeyError") end
  | _ => Raise (PyError "TypeError")
  end.

(** Digits of an [int] literal, most significant first, with the single
    underscores Python accepts between digits. *)
Definition digit_val (c : ascii) : option Z :=
  let n := N_of_ascii c in
  if ((48 <=? n) && (n <=? 57))%N then Some (Z.of_N n - 48) else None.

Fixpoint int_digits (acc : Z) (after_digit : bool) (s : string) : option Z :=
  match s with
  | EmptyString => if after_digit then Some acc else None
  | String c s' =>
    match digit_val c with
    | Some d => int_digits (10 * acc + d) true s'
    | None =>
      if (c =? "_")%char && after_digit then int_digits acc false s' else None
    end
  end.

(** [int(s)] for a [str] in base 10: surrounding whitespace, an optional
    sign, then the digits.  The digits are the ASCII ones; the decimal
    digits of other scripts, which Python reads too, are outside the
    model. *)
Definition int_of_str (s : string) : option Z :=
  match strip s with
  | String "-" s' => option_map Z.opp (int_digits 0 false s')
  | String "+" s' => int_digits 0 false s'
  | s' => int_digits 0 false s'
  end.

(** [int(v)] *)
Definition int (v : json) : result Z :=
  match v with
  | JInt z => Ok z
  | JBool b => Ok (if b then 1 else 0)
  | JStr s =>
    match int_of_str s with
    | Some z => Ok z
    | None => Raise (PyError "ValueError")
    end
  | JNull | JList _ | JDict _ => Raise (PyError "TypeError")
  end.

(** *** uuid *)

Definition hex_digit (n : N) : ascii :=
  if (n <? 10)%N then ascii_of_N (48 + n) else ascii_of_N (87 + n).

(** The [w] low hexadecimal digits of [v], lowercase, most significant
    first. *)
Fixpoint hex_fixed (w : nat) (v : N) : string :=
  match w with
  | O => EmptyString
  | S w' => hex_fixed w' (v / 16) ++ String (hex_digit (v mod 16)) EmptyString
  end.

(** [u.hex] of a [uuid.UUID] with 128-bit value [u]. *)
Definition uuid_hex (u : N) : string := hex_fixed 32 u.

(** [str(u)]: the digits grouped 8-4-4-4-12. *)
Definition uuid_str (u : N) : string :=
  let h := uuid_hex u in
  substring 0 8 h ++ "-" ++ substring 8 4 h ++ "-" ++ substring 12 4 h
  ++ "-" ++ substring 16 4 h ++ "-" ++ substring 20 12 h.

End Py.

(* ================================================================== *)
(** ** Flow signing *)
(* ================================================================== *)

Module Signer.

(** A parameter value: a [str] or an [int] ([amount] is [350]). *)
Inductive pyval : Type :=
| VStr (s : string)
| VInt (z : Z).

(** [f"{v}"] *)
Definition render (v : pyval) : string :=
  match v with
  | VStr s => s
  | VInt z => Py.str_of_int z
  end.

(** A [dict] of parameters as its items in iteration order; the keys
    are distinct. *)
Definition pydict : Type := list (string * pyval).

(** [d[k] = v]: an existing key keeps its place, a new one goes last. *)
Fixpoint setitem (d : pydict) (k : string) (v : pyval) : pydict :=
  match d with
  | [] => [(k, v)]
  | (k', v') :: d' =>
    if (k' =? k)%string then (k, v) :: d' else (k', v') :: setitem d' k v
  end.

Definition key_le (x y : string * pyval) : Prop :=
  String.leb (fst x) (fst y) = true.

(** [sorted(items, key=lambda x: x[0])].  Python's sort is stable; so is
    this insertion sort, which puts an item before the items of the
    same key that followed it. *)
Fixpoint insert (x : string * pyval) (l : pydict) : pydict :=
  match l with
  | [] => [x]
  | y :: l' => if String.leb (fst x) (fst y) then x :: l else y :: insert x l'
  end.

Fixpoint sorted (l : pydict) : pydict :=
  match l with
  | [] => []
  | x :: l' => insert x (sorted l')
  end.

(** ["".join([f"{k}{v}" for k, v in items])] *)
Definition to_sign (items : pydict) : string :=
  String.concat "" (map (fun kv => fst kv ++ render (snd kv)) items).

Section Sign.

(** [hmac.new(key, msg, hashlib.sha256).hexdigest()] *)
Variable hmac_sha256_hexdigest : string -> string -> string.

Definition flow_sign (params : pydict) (secret_key : string) : string :=
  let items := sorted params in
  hmac_sha256_hexdigest secret_key (to_sign items).

End Sign.

(** The message as the specification words it: the entries without a
    signature field [s] that is already there, sorted by key and
    concatenated.  Kept apart from [flow_sign], to compare the two. *)
Definition without_signature (params : pydict) : pydict :=
  filter (fun kv => negb (fst kv =? "s")%string) params.

Definition spec_message (params : pydict) : string :=
  to_sign (sorted (without_signature params)).

End Signer.

(* ================================================================== *)
(** ** The [orders] table *)
(* ================================================================== *)

Module Db.
Import Py.

(** A row of [orders], columns in the order of [CREATE TABLE].  [status]
    is [INTEGER NOT NULL]: 1 for a created order, 2 for a paid one.
    [download_token] and [paid_at] are nullable. *)
Record order : Type := mk_order {
  id : string;
  created_at : string;
  email : string;
  commerce_order : string;
  flow_token : string;
  status : Z;
  download_token : option string;
  paid_at : option string
}.

(** The table as its rows in rowid order, which is the order of
    insertion (no row is ever deleted). *)
Definition table : Type := list order.

(** [db_init] on a new database file. *)
Definition db_init : table := [].

Definition has_id (order_id : string) (r : order) : bool :=
  (id r =? order_id)%string.

(** The [INSERT] of [db_create_order].  [id] is the primary key: a second
    row with the same [id] is refused with [sqlite3.IntegrityError] and
    the transaction is rolled back.  No other column carries a
    uniqueness constraint. *)
Definition db_create_order
    (order_id email commerce_order flow_token : string) (now : string)
    (t : table) : result table :=
  if existsb (has_id order_id) t
  then Raise (PyError "sqlite3.IntegrityError")
  else Ok (t ++ [mk_order order_id now email commerce_order flow_token 1 None None])%list.

Definition has_flow_token (tok : string) (r : order) : bool :=
  (flow_token r =? tok)%string.

(** [SELECT id, email, status, download_token ... WHERE flow_token=?]
    followed by [fetchone()]. *)
Definition db_get_by_flow_token (tok : string) (t : table)
    : option (string * string * Z * option string) :=
  option_map (fun r => (id r, email r, status r, download_token r))
             (find (has_flow_token tok) t).

Definition is_null {A} (o : option A) : bool :=
  match o with None => true | Some _ => false end.

(** The [WHERE] clause of [db_mark_paid]:
    [flow_token=? AND (status IS NULL OR status != 2 OR download_token IS NULL)].
    [status] is never [NULL]. *)
Definition mark_paid_where (tok : string) (r : order) : bool :=
  has_flow_token tok r && (negb (status r =? 2) || is_null (download_token r)).

(** [SET status=2, download_token=?, paid_at=?] *)
Definition mark_paid_set (dl : string) (now : string) (r : order) : order :=
  mk_order (id r) (created_at r) (email r) (commerce_order r) (flow_token r)
           2 (Some dl) (Some now).

(** The [UPDATE] of [db_mark_paid]; the function returns nothing. *)
Definition db_mark_paid (tok download_tok : string) (now : string)
    (t : table) : table :=
  map (fun r => if mark_paid_where tok r then mark_paid_set download_tok now r
                else r) t.

(** The call [db_mark_paid(flow_token, download_token)] as the caller
    sees it: its value and the table it leaves.  The function has no
    [return] statement, so the value is [None] whatever the [UPDATE]
    did. *)
Definition db_mark_paid_call (tok download_tok : string) (now : string)
    (t : table) : json * table :=
  (JNull, db_mark_paid tok download_tok now t).

Definition has_download_token (dl : string) (r : order) : bool :=
  match download_token r with
  | Some d => (d =? dl)%string
  | None => false
  end.

(** [SELECT email, status, flow_token ... WHERE download_token=?]
    followed by [fetchone()]. *)
Definition db_get_by_download_token (dl : string) (t : table)
    : option (string * Z * string) :=
  option_map (fun r => (email r, status r, flow_token r))
             (find (has_download_token dl) t).

(** The two statements that write to the table. *)
Inductive op : Type :=
| Create (order_id email commerce_order flow_token now : string)
| MarkPaid (flow_token download_token now : string).

Definition run_op (o : op) (t : table) : table :=
  match o with
  | Create i e c f now =>
    match db_create_order i e c f now t with
    | Ok t' => t'
    | Raise _ => t
    end
  | MarkPaid f d now => db_mark_paid f d now t
  end.

(** The tables met while running [ops] from [t], [t] first. *)
Fixpoint trace (ops : list op) (t : table) : list table :=
  match ops with
  | [] => [t]
  | o :: ops' => t :: trace ops' (run_op o t)
  end.

Definition run (ops : list op) (t : table) : table :=
  fold_left (fun t o => run_op o t) ops t.

Definition lookup (order_id : string) (t : table) : option order :=
  find (has_id order_id) t.

(** What an order looks like from outside at one moment: absent, or
    its status and download token. *)
Definition view (order_id : string) (t : table) : option (Z * option string) :=
  option_map (fun r => (status r, download_token r)) (lookup order_id t).

Definition view_eqb (a b : option (Z * option string)) : bool :=
  match a, b with
  | None, None => true
  | Some (s1, d1), Some (s2, d2) =>
    (s1 =? s2) &&
    match d1, d2 with
    | None, None => true
    | Some x, Some y => (x =? y)%string
    | _, _ => false
    end
  | _, _ => false
  end.

(** Number of steps of a trace at which an order that is already in the
    table changes its status or its download token. *)
Fixpoint changes (order_id : string) (tr : list table) : nat :=
  match tr with
  | t1 :: ((t2 :: _) as tr') =>
    (match view order_id t1 with
     | Some v => if view_eqb (Some v) (view order_id t2) then 0 else 1
     | None => 0
     end + changes order_id tr')%nat
  | _ => 0%nat
  end.

End Db.

(* ================================================================== *)
(** ** Configuration and the gateway *)
(* ================================================================== *)

Module Gateway.
Import Py Signer.

(** The module-level settings, read from the environment at start-up. *)
Record Config : Type := mk_config {
  FLOW_API_URL : string;
  FLOW_API_KEY : string;
  FLOW_SECRET_KEY : string;
  PUBLIC_BASE_URL : string;
  DOWNLOAD_BASE_URL : string;
  PRODUCT_FILE : string;
  SMTP_HOST : string;
  SMTP_PORT : Z;
  SMTP_USER : string;
  SMTP_PASS : string;
  FROM_EMAIL : string
}.

Inductive http_method : Type := GET | POST.

(** A request of [requests.get] / [requests.post]: the parameters are
    kept as the [dict] that is encoded on the wire. *)
Record http_request : Type := mk_request {
  method : http_method;
  url : string;
  fields : pydict
}.

(** What the call comes back with: an exception of [requests] (no
    connection, time-out), or a response with its status code, its text
    and what [resp.json()] decodes it to ([None]: it raises). *)
Inductive http_reply : Type :=
| NetworkError (cls : string)
| Reply (status_code : Z) (text : string) (decoded : option json).

Definition gateway : Type := http_request -> http_reply.

Section Calls.

Variable hmac_sha256_hexdigest : string -> string -> string.
Variable cfg : Config.
Variable gw : gateway.

Definition flow_post (endpoint : string) (params : pydict) : result json :=
  if negb (nonempty (FLOW_API_KEY cfg)) || negb (nonempty (FLOW_SECRET_KEY cfg))
  then Raise (HTTPException 500
                "FLOW_API_KEY / FLOW_SECRET_KEY no configuradas en .env")
  else
    let params := setitem params "apiKey" (VStr (FLOW_API_KEY cfg)) in
    let params :=
      setitem params "s"
        (VStr (flow_sign hmac_sha256_hexdigest params (FLOW_SECRET_KEY cfg))) in
    match gw (mk_request POST (FLOW_API_URL cfg ++ endpoint) params) with
    | NetworkError cls => Raise (PyError cls)
    | Reply code text decoded =>
      if negb (code =? 200)
      then Raise (HTTPException 400 ("Flow error: " ++ text))
      else match decoded with
           | Some data => Ok data
           | None => Raise (HTTPException 400 ("Flow response no-JSON: " ++ text))
           end
    end.

Definition flow_get_status (token : string) : result json :=
  let params := [("apiKey", VStr (FLOW_API_KEY cfg)); ("token", VStr token)] in
  let params :=
    setitem params "s"
      (VStr (flow_sign hmac_sha256_hexdigest params (FLOW_SECRET_KEY cfg))) in
  match gw (mk_request GET (FLOW_API_URL cfg ++ "/payment/getStatus") params) with
  | NetworkError cls => Raise (PyError cls)
  | Reply code text decoded =>
    if negb (code =? 200)
    then Raise (HTTPException 400 ("Flow status error: " ++ text))
    else match decoded with
         | Some data => Ok data
         | None =>
           Raise (HTTPException 400 ("Flow status response no-JSON: " ++ text))
         end
  end.

End Calls.

End Gateway.

(* ================================================================== *)
(** ** Utils *)
(* ================================================================== *)

Module Utils.
Import Py.

(** [EMAIL_REGEX = ^[^@\s]+@[^@\s]+\.[^@\s]+$] *)

(** No character of [s] is [@] or whitespace. *)
Fixpoint no_at_ws (s : string) : bool :=
  match s with
  | EmptyString => true
  | String c s' =>
    negb (c =? "@")%char
    && match ws_len s with O => true | _ => false end
    && no_at_ws s'
  end.

(** [s] cut at its first [@]. *)
Fixpoint split_at (s : string) : option (string * string) :=
  match s with
  | EmptyString => None
  | String c s' =>
    if (c =? "@")%char then Some (EmptyString, s')
    else match split_at s' with
         | Some (a, b) => Some (String c a, b)
         | None => None
         end
  end.

Fixpoint dot_not_last (s : string) : bool :=
  match s with
  | String c ((String _ _) as s') => (c =? ".")%char || dot_not_last s'
  | _ => false
  end.

(** [s] has a dot that is neither its first nor its last character. *)
Definition dot_inside (s : string) : bool :=
  match s with
  | String _ s' => dot_not_last s'
  | EmptyString => false
  end.

(** The pattern between [^] and [$] matches the whole of [s]. *)
Definition email_shape (s : string) : bool :=
  match split_at s with
  | Some (local, domain) =>
    nonempty local && no_at_ws local && no_at_ws domain && dot_inside domain
  | None => false
  end.

(** [s] without its final line feed, when it ends with one. *)
Fixpoint chop_newline (s : string) : option string :=
  match s with
  | EmptyString => None
  | String c EmptyString =>
    if (N_of_ascii c =? 10)%N then Some EmptyString else None
  | String c s' => option_map (String c) (chop_newline s')
  end.

(** [EMAIL_REGEX.match(s)] succeeds; [$] also matches just before a
    line feed that ends the string. *)
Definition EMAIL_REGEX_match (s : string) : bool :=
  email_shape s
  || match chop_newline s with
     | Some s0 => email_shape s0
     | None => false
     end.

Definition is_valid_email (email : string) : bool :=
  nonempty email && EMAIL_REGEX_match email.

End Utils.

(* ================================================================== *)
(** ** Handlers *)
(* ================================================================== *)

Module App.
Import Py Signer Db Gateway Utils.

Definition nl : string := String (byte 10) EmptyString.
Definition dq : string := String (byte 34) EmptyString.

(** *** The world a handler runs in *)

(** A call [background_tasks.add_task(send_email, to, subject, body)]. *)
Record email_task : Type := mk_task {
  to_email : string;
  subject : string;
  body : string
}.

Record World : Type := mk_world {
  orders : table;
  background_tasks : list email_task
}.

(** A computation reads and writes the world and returns or raises.
    Every database function commits before it returns, so what was
    written before an exception stays written. *)
Definition M (A : Type) : Type := World -> result A * World.

Definition ret {A} (a : A) : M A := fun w => (Ok a, w).

Definition raise {A} (e : exn) : M A := fun w => (Raise e, w).

Definition bind {A B} (c : M A) (k : A -> M B) : M B :=
  fun w =>
    match c w with
    | (Ok a, w') => k a w'
    | (Raise e, w') => (Raise e, w')
    end.

Notation "x <- c ;; k" := (bind c (fun x => k))
  (at level 61, c at next level, right associativity).
Notation "c ;;; k" := (bind c (fun _ => k))
  (at level 61, right associativity).

Definition lift {A} (r : result A) : M A := fun w => (r, w).

(** A [SELECT]. *)
Definition query {A} (q : table -> A) : M A :=
  fun w => (Ok (q (orders w)), w).

(** A statement that writes, committed when it succeeds. *)
Definition execute (u : table -> result table) : M unit :=
  fun w =>
    match u (orders w) with
    | Ok t => (Ok tt, mk_world t (background_tasks w))
    | Raise e => (Raise e, w)
    end.

Definition add_task (t : email_task) : M unit :=
  fun w => (Ok tt, mk_world (orders w) (background_tasks w ++ [t])%list).

(** *** Responses *)

(** A handler that returns a [dict] is answered as JSON with status 200,
    like [JSONResponse(content)] with the default status. *)
Inductive response : Type :=
| JSONResponse (content : json) (status_code : Z)
| FileResponse (path media_type filename : string).

(** The status code the client receives. *)
Definition http_status (r : result response) : Z :=
  match r with
  | Ok (JSONResponse _ code) => code
  | Ok (FileResponse _ _ _) => 200
  | Raise (HTTPException code _) => code
  | Raise (PyError _) => 500
  end.

(** The framework serves a request with an empty task queue and runs
    the queue after the response. *)
Definition serve (h : M response) (t : table)
    : result response * table * list email_task :=
  let '(r, w) := h (mk_world t []) in (r, orders w, background_tasks w).

(** *** Email *)

Inductive delivery : Type :=
| Skipped (log : string)
| Sent (from to subj content : string).

Definition send_email (cfg : Config) (t : email_task) : delivery :=
  if negb (nonempty (to_email t))
  then Skipped ("[EMAIL SKIPPED] to_email vacío. Body: " ++ body t)
  else if negb (nonempty (SMTP_HOST cfg)) || negb (nonempty (SMTP_USER cfg))
          || negb (nonempty (SMTP_PASS cfg))
  then Skipped ("[EMAIL SKIPPED] SMTP no configurado. Para: " ++ to_email t
                ++ " Link: " ++ body t)
  else Sent (FROM_EMAIL cfg) (to_email t) (subject t) (body t).

Definition mail_subject : string :=
  "Tu Pack IA para PYMES 2026 — Link de descarga".

Definition mail_body (download_link : string) : string :=
  "¡Gracias por tu compra!" ++ nl ++ nl
  ++ "Aquí está tu link de descarga:" ++ nl ++ download_link ++ nl ++ nl
  ++ "Si tienes problemas, responde a este correo." ++ nl
  ++ "— Flujos Digitales".

Section Endpoints.

Variable hmac_sha256_hexdigest : string -> string -> string.
(** [str.lower] *)
Variable str_lower : string -> string.
(** [repr] of a decoded JSON [list] or [dict] *)
Variable py_repr : json -> string.
Variable cfg : Config.

(** [f"{v}"] for a decoded JSON value. *)
Definition format (v : json) : string :=
  match v with
  | JStr s => s
  | JInt z => str_of_int z
  | JBool b => if b then "True" else "False"
  | JNull => "None"
  | JList _ | JDict _ => py_repr v
  end.

(** A decoded JSON value bound to a placeholder of a [TEXT NOT NULL]
    column: a [str] as it is, an [int] of 64 bits as its decimal text,
    [None] refused by the constraint, a container refused by the
    driver. *)
Definition bind_text (v : json) : result string :=
  match v with
  | JStr s => Ok s
  | JInt z =>
    if (- 2 ^ 63 <=? z) && (z <? 2 ^ 63) then Ok (str_of_int z)
    else Raise (PyError "OverflowError")
  | JBool b => Ok (if b then "1" else "0")
  | JNull => Raise (PyError "sqlite3.IntegrityError")
  | JList _ | JDict _ => Raise (PyError "sqlite3.ProgrammingError")
  end.

Definition health : response :=
  JSONResponse
    (JDict [("ok", JBool true);
            ("service", JStr "flow-backend");
            ("flow_api_url", JStr (FLOW_API_URL cfg));
            ("public_base_url", JStr (PUBLIC_BASE_URL cfg));
            ("download_base_url", JStr (DOWNLOAD_BASE_URL cfg))])
    200.

(** [(payload.get("email") or "")] followed by the attribute lookup of
    [.strip], which only a [str] has. *)
Definition email_field (payload : list (string * json)) : result string :=
  let v := match assoc "email" payload with Some v => v | None => JNull end in
  if truthy v then
    match v with
    | JStr s => Ok s
    | _ => Raise (PyError "AttributeError")
    end
  else Ok EmptyString.

(** The [params] of [pay_create]. *)
Definition pay_create_params (commerce_order order_id email : string) : pydict :=
  [("commerceOrder", VStr commerce_order);
   ("subject", VStr "Pack IA para PYMES 2026");
   ("currency", VStr "CLP");
   ("amount", VInt 350);
   ("email", VStr email);
   ("urlConfirmation", VStr (PUBLIC_BASE_URL cfg ++ "/flow/confirmation"));
   ("urlReturn", VStr (PUBLIC_BASE_URL cfg ++ "/flow/return"));
   ("optional", VStr ("{" ++ dq ++ "orderId" ++ dq ++ ":" ++ dq ++ order_id
                      ++ dq ++ "}"))].

(** [POST /pay/create].  [u1] and [u2] are the two [uuid.uuid4()] drawn,
    [now] is [datetime.utcnow().isoformat()]. *)
Definition pay_create (gw : gateway) (u1 u2 : N) (now : string)
    (payload : list (string * json)) : M response :=
  s <- lift (email_field payload) ;;
  let email := str_lower (strip s) in
  if negb (is_valid_email email)
  then raise (HTTPException 400 "Email inválido o faltante")
  else if negb (nonempty (PUBLIC_BASE_URL cfg))
  then raise (HTTPException 500
    "PUBLIC_BASE_URL no está configurado (necesario para urlConfirmation/urlReturn públicos).")
  else
    let commerce_order := uuid_str u1 in
    let order_id := uuid_str u2 in
    let params := pay_create_params commerce_order order_id email in
    data <- lift (flow_post hmac_sha256_hexdigest cfg gw "/payment/create" params) ;;
    flow_token <- lift (getitem data "token") ;;
    url <- lift (getitem data "url") ;;
    let checkout_url := format url ++ "?token=" ++ format flow_token in
    tok <- lift (bind_text flow_token) ;;
    execute (db_create_order order_id email commerce_order tok now) ;;;
    ret (JSONResponse
           (JDict [("ok", JBool true);
                   ("checkoutUrl", JStr checkout_url);
                   ("token", flow_token)])
           200).

(** [str(form.get("token") or "").strip()]; [form_token] is what
    [form.get("token")] returns for a text field. *)
Definition token_of_form (form_token : option string) : string :=
  strip (match form_token with Some s => s | None => EmptyString end).

(** [int(status.get("status", 0))] *)
Definition status_code_of (status : json) : result Z :=
  match get status "status" (JInt 0) with
  | Ok v => int v
  | Raise e => Raise e
  end.

(** [POST /flow/confirmation].  [u] is the [uuid.uuid4()] drawn when a
    download token is minted. *)
Definition flow_confirmation (gw : gateway) (u : N) (now : string)
    (form_token : option string) : M response :=
  let token := token_of_form form_token in
  if negb (nonempty token)
  then ret (JSONResponse
              (JDict [("ok", JBool false); ("error", JStr "missing token")]) 200)
  else
    status <- lift (flow_get_status hmac_sha256_hexdigest cfg gw token) ;;
    st <- lift (status_code_of status) ;;
    order <- query (db_get_by_flow_token token) ;;
    match order with
    | None =>
      ret (JSONResponse
             (JDict [("ok", JBool true); ("warn", JStr "order_not_found")]) 200)
    | Some (_order_id, order_email, order_status, existing_download_token) =>
      (if st =? 2 then
         download_token <-
           (match existing_download_token with
            | Some d =>
              if nonempty d then ret d
              else execute (fun t => Ok (db_mark_paid token (uuid_hex u) now t)) ;;;
                   ret (uuid_hex u)
            | None =>
              execute (fun t => Ok (db_mark_paid token (uuid_hex u) now t)) ;;;
              ret (uuid_hex u)
            end) ;;
         let download_link :=
           DOWNLOAD_BASE_URL cfg ++ "/download/" ++ download_token in
         add_task (mk_task order_email mail_subject (mail_body download_link))
       else ret tt) ;;;
      ret (JSONResponse (JDict [("ok", JBool true)]) 200)
    end.

(** [POST /flow/return] *)
Definition flow_return (gw : gateway) (form_token : option string)
    : M response :=
  let token := token_of_form form_token in
  if negb (nonempty token)
  then ret (JSONResponse
              (JDict [("ok", JBool false); ("error", JStr "missing token")]) 200)
  else
    status <- lift (flow_get_status hmac_sha256_hexdigest cfg gw token) ;;
    st <- lift (status_code_of status) ;;
    if st =? 2 then
      ret (JSONResponse
             (JDict [("ok", JBool true);
                     ("message",
                      JStr "Pago confirmado. Revisa tu correo para el link de descarga.")])
             200)
    else if st =? 1 then
      ret (JSONResponse
             (JDict [("ok", JBool true);
                     ("message",
                      JStr "Pago pendiente. Si fue transferencia/cupón, puede tardar.")])
             200)
    else
      ret (JSONResponse
             (JDict [("ok", JBool false);
                     ("message", JStr "Pago no completado (rechazado/anulado).")])
             200).

(** [GET /download/{download_token}].  [path_exists] is
    [os.path.exists]. *)
Definition download (path_exists : string -> bool) (download_token : string)
    : M response :=
  row <- query (db_get_by_download_token download_token) ;;
  match row with
  | None => raise (HTTPException 404 "Link inválido o expirado")
  | Some (email, status, flow_token) =>
    if negb (status =? 2)
    then raise (HTTPException 403 "Pago no confirmado")
    else if negb (path_exists (PRODUCT_FILE cfg))
    then raise (HTTPException 500
                  ("No existe el archivo del producto: " ++ PRODUCT_FILE cfg))
    else ret (FileResponse (PRODUCT_FILE cfg) "application/zip"
                           (basename (PRODUCT_FILE cfg)))
  end.

End Endpoints.

End App.

(* ################################################################## *)
(** * Properties *)
(* ################################################################## *)

(* ================================================================== *)
(** ** Order on keys *)
(* ================================================================== *)

(** Python compares two [str] by code point, that is [String.compare]
    on the UTF-8 bytes; [k1 <= k2] is [String.leb k1 k2]. *)
Module KeyOrder.

Lemma ascii_compare_refl (a : ascii) : Ascii.compare a a = Eq.
Proof. unfold Ascii.compare. apply N.compare_refl. Qed.

Lemma ascii_compare_lt_trans (a b c : ascii) :
  Ascii.compare a b = Lt -> Ascii.compare b c = Lt -> Ascii.compare a c = Lt.
Proof.
  unfold Ascii.compare. rewrite !N.compare_lt_iff. apply N.lt_trans.
Qed.

Lemma compare_lt_trans (s1 : string) :
  forall s2 s3,
    String.compare s1 s2 = Lt -> String.compare s2 s3 = Lt ->
    String.compare s1 s3 = Lt.
Proof.
  induction s1 as [|a s1 IH]; intros [|b s2] [|c s3]; simpl;
    try congruence.
  destruct (Ascii.compare a b) eqn:Hab; try discriminate;
    destruct (Ascii.compare b c) eqn:Hbc; try discriminate; intros H12 H23.
  - apply Ascii.compare_eq_iff in Hab, Hbc. subst.
    rewrite ascii_compare_refl. eauto.
  - apply Ascii.compare_eq_iff in Hab. subst. now rewrite Hbc.
  - apply Ascii.compare_eq_iff in Hbc. subst. now rewrite Hab.
  - now rewrite (ascii_compare_lt_trans _ _ _ Hab Hbc).
Qed.

Lemma leb_false_lt (s1 s2 : string) :
  String.leb s1 s2 = false -> String.compare s2 s1 = Lt.
Proof.
  unfold String.leb. rewrite (String.compare_antisym s2 s1).
  destruct (String.compare s1 s2); simpl; congruence.
Qed.

Lemma leb_true_cases (s1 s2 : string) :
  String.leb s1 s2 = true -> s1 = s2 \/ String.compare s1 s2 = Lt.
Proof.
  unfold String.leb. destruct (String.compare s1 s2) eqn:H; try discriminate.
  - left. now apply String.compare_eq_iff.
  - now right.
Qed.

Lemma lt_leb (s1 s2 : string) :
  String.compare s1 s2 = Lt -> String.leb s1 s2 = true.
Proof. unfold String.leb. now intros ->. Qed.

Lemma lt_not_geb (s1 s2 : string) :
  String.compare s1 s2 = Lt -> String.leb s2 s1 = false.
Proof.
  unfold String.leb. rewrite (String.compare_antisym s1 s2).
  destruct (String.compare s2 s1); simpl; congruence.
Qed.

Lemma leb_refl (s : string) : String.leb s s = true.
Proof.
  unfold String.leb.
  destruct (String.compare s s) eqn:H; auto.
  pose proof (String.compare_antisym s s) as A. rewrite H in A. discriminate.
Qed.

Lemma leb_trans (s1 s2 s3 : string) :
  String.leb s1 s2 = true -> String.leb s2 s3 = true -> String.leb s1 s3 = true.
Proof.
  intros H12 H23.
  destruct (leb_true_cases _ _ H12) as [->|L12]; auto.
  destruct (leb_true_cases _ _ H23) as [<-|L23]; auto.
  apply lt_leb. eapply compare_lt_trans; eauto.
Qed.

End KeyOrder.

(* ================================================================== *)
(** ** The signer *)
(* ================================================================== *)

Module SignerFacts.
Import Signer KeyOrder.

Lemma insert_perm (x : string * pyval) (l : pydict) :
  Permutation (insert x l) (x :: l).
Proof.
  induction l as [|y l IH]; simpl; auto.
  destruct (String.leb (fst x) (fst y)); auto.
  rewrite IH. apply perm_swap.
Qed.

Lemma sorted_perm (l : pydict) : Permutation (sorted l) l.
Proof.
  induction l as [|x l IH]; simpl; auto.
  rewrite insert_perm. now constructor.
Qed.

Lemma insert_Forall (P : string * pyval -> Prop) x l :
  P x -> Forall P l -> Forall P (insert x l).
Proof.
  intros Hx Hl. eapply Permutation_Forall.
  - symmetry. apply insert_perm.
  - now constructor.
Qed.

Lemma insert_sorted x l :
  StronglySorted key_le l -> StronglySorted key_le (insert x l).
Proof.
  induction 1 as [|y l Hs IH Hy]; simpl.
  - repeat constructor.
  - destruct (String.leb (fst x) (fst y)) eqn:E.
    + constructor; [now constructor|].
      constructor; [exact E|].
      eapply Forall_impl; [|exact Hy].
      intros z Hz. unfold key_le in *. eapply leb_trans; eauto.
    + constructor; auto.
      apply insert_Forall; auto.
      unfold key_le. apply lt_leb. now apply leb_false_lt.
Qed.

Lemma sorted_sorted (l : pydict) : StronglySorted key_le (sorted l).
Proof.
  induction l as [|x l IH]; simpl; [constructor | now apply insert_sorted].
Qed.

(** Two insertions of items with different keys commute. *)
Lemma insert_insert x y l :
  fst x <> fst y -> insert x (insert y l) = insert y (insert x l).
Proof.
  intros Hxy. induction l as [|z l IH]; simpl.
  - destruct (String.leb (fst x) (fst y)) eqn:Exy;
      destruct (String.leb (fst y) (fst x)) eqn:Eyx; auto.
    + exfalso. apply Hxy. now apply String.leb_antisym.
    + apply leb_false_lt in Exy. apply lt_leb in Exy. congruence.
  - destruct (String.leb (fst y) (fst z)) eqn:Eyz;
      destruct (String.leb (fst x) (fst z)) eqn:Exz; simpl;
      rewrite ?Eyz, ?Exz.
    + destruct (String.leb (fst x) (fst y)) eqn:Exy;
        destruct (String.leb (fst y) (fst x)) eqn:Eyx; simpl;
        rewrite ?Eyz, ?Exz; auto.
      * exfalso. apply Hxy. now apply String.leb_antisym.
      * apply leb_false_lt in Exy. apply lt_leb in Exy. congruence.
    + assert (String.leb (fst x) (fst y) = false) as Exy.
      { destruct (String.leb (fst x) (fst y)) eqn:Exy; auto.
        rewrite (leb_trans _ _ _ Exy Eyz) in Exz. discriminate. }
      simpl. now rewrite ?Exy, ?Exz, ?Eyz.
    + assert (String.leb (fst y) (fst x) = false) as Eyx.
      { destruct (String.leb (fst y) (fst x)) eqn:Eyx; auto.
        rewrite (leb_trans _ _ _ Eyx Exz) in Eyz. discriminate. }
      simpl. now rewrite ?Eyx, ?Exz, ?Eyz.
    + now rewrite IH.
Qed.

(** With distinct keys the sorted items do not depend on the order in
    which the [dict] yields them. *)
Lemma sorted_order_independent (l l' : pydict) :
  NoDup (map fst l) -> Permutation l l' -> sorted l = sorted l'.
Proof.
  intros Hnd Hp. induction Hp as [|x l l' Hp IH|x y l|l l' l'' H1 IH1 H2 IH2].
  - reflexivity.
  - simpl. inversion Hnd; subst. now rewrite IH.
  - simpl. inversion Hnd as [|? ? Hin Hnd']; subst.
    apply insert_insert. intros E. apply Hin. left. now symmetry.
  - rewrite IH1 by assumption. apply IH2.
    eapply Permutation_NoDup; [|exact Hnd]. now apply Permutation_map.
Qed.

(** C5 (amended): [flow_sign] is the HMAC, under the secret, of the
    concatenation [key ++ value] of ALL the entries it is given (the
    items signed are a permutation of the parameters: an entry [s] that
    is already there is signed like any other), taken in ascending
    order of key; and for a [dict], whose keys are distinct, the result
    does not depend on the iteration order. *)
Theorem flow_sign_sorted_concat_of_all_entries :
  forall (hmac : string -> string -> string) (params : pydict) (secret : string),
    (exists items,
        Permutation items params /\
        StronglySorted key_le items /\
        flow_sign hmac params secret
        = hmac secret
            (String.concat "" (map (fun kv => fst kv ++ render (snd kv)) items)))
    /\ (forall params',
          NoDup (map fst params) -> Permutation params params' ->
          flow_sign hmac params' secret = flow_sign hmac params secret).
Proof.
  intros hmac params secret. split.
  - exists (sorted params). split; [apply sorted_perm|].
    split; [apply sorted_sorted | reflexivity].
  - intros params' Hnd Hp. unfold flow_sign.
    now rewrite (sorted_order_independent _ _ Hnd Hp).
Qed.

(** The example of the specification, [sign({b:2,a:1}, k) ==
    sign({a:1,b:2}, k)], obtained from the theorem. *)
Lemma flow_sign_sorted_concat_of_all_entries_witness :
  flow_sign (fun k m => (k ++ ":" ++ m)%string)
            [("a", VInt 1); ("b", VInt 2)] "k"
  = flow_sign (fun k m => (k ++ ":" ++ m)%string)
              [("b", VInt 2); ("a", VInt 1)] "k".
Proof.
  apply (proj2 (flow_sign_sorted_concat_of_all_entries
                  (fun k m => (k ++ ":" ++ m)%string)
                  [("b", VInt 2); ("a", VInt 1)] "k")).
  - simpl. repeat constructor; simpl; intuition discriminate.
  - apply perm_swap.
Defined.

(** C5 as stated fails: a parameter [s] that is already in the [dict]
    is part of the signed message, where the specification leaves it
    out. *)
Lemma flow_sign_signs_signature_field :
  to_sign (sorted [("s", VStr "x"); ("a", VInt 1)]) = "a1sx"
  /\ spec_message [("s", VStr "x"); ("a", VInt 1)] = "a1"
  /\ (forall hmac secret,
        flow_sign hmac [("s", VStr "x"); ("a", VInt 1)] secret
        = hmac secret "a1sx")
  /\ to_sign (sorted [("s", VStr "x"); ("a", VInt 1)])
     <> spec_message [("s", VStr "x"); ("a", VInt 1)].
Proof.
  repeat split; try reflexivity. vm_compute. discriminate.
Qed.

End SignerFacts.

(* ================================================================== *)
(** ** The order table *)
(* ================================================================== *)

Module DbFacts.
Import Py Db.
Local Open Scope list_scope.

(** *** [db_create_order] *)

Lemma existsb_has_id (i : string) (t : table) :
  existsb (has_id i) t = true <-> In i (map id t).
Proof.
  rewrite existsb_exists, in_map_iff. unfold has_id.
  split; intros [r H]; exists r.
  - destruct H as [Hin E]. apply String.eqb_eq in E. auto.
  - destruct H as [E Hin]. split; auto. now apply String.eqb_eq.
Qed.

Lemma db_create_order_fresh (i e c f now : string) (t : table) :
  ~ In i (map id t) ->
  db_create_order i e c f now t = Ok (t ++ [mk_order i now e c f 1 None None]).
Proof.
  intros Hnew. unfold db_create_order.
  destruct (existsb (has_id i) t) eqn:E; [|reflexivity].
  apply existsb_has_id in E. contradiction.
Qed.

(** C6 (amended): [db_create_order] is refused exactly when the [id] is
    already in the table, and then leaves the table as it is (the result
    carries no table); otherwise it adds one row, last, with status 1
    (created) and neither download token nor payment date, whatever
    [commerce_order] the rows already hold. *)
Theorem db_create_order_refuses_duplicate_id_only :
  forall (i e c f now : string) (t : table),
    (In i (map id t) ->
     db_create_order i e c f now t = Raise (PyError "sqlite3.IntegrityError"))
    /\ (~ In i (map id t) ->
        db_create_order i e c f now t
        = Ok (t ++ [mk_order i now e c f 1 None None])).
Proof.
  intros i e c f now t. unfold db_create_order.
  destruct (existsb (has_id i) t) eqn:E.
  - apply existsb_has_id in E. split; [reflexivity | contradiction].
  - split; [|reflexivity]. intros Hin. apply existsb_has_id in Hin. congruence.
Qed.

Lemma db_create_order_refuses_duplicate_id_only_witness :
  db_create_order "o1" "b@x.cl" "c2" "tok2" "t1"
    [mk_order "o1" "t0" "a@x.cl" "c1" "tok1" 1 None None]
  = Raise (PyError "sqlite3.IntegrityError").
Proof.
  apply (proj1 (db_create_order_refuses_duplicate_id_only
                  "o1" "b@x.cl" "c2" "tok2" "t1"
                  [mk_order "o1" "t0" "a@x.cl" "c1" "tok1" 1 None None])).
  simpl. now left.
Defined.

(** C6 as stated fails: a second order with the [commerce_order] of a
    stored one, under a new [id], is inserted. *)
Lemma db_create_order_accepts_duplicate_commerce_order :
  db_create_order "o2" "b@x.cl" "c1" "tok2" "t1"
    [mk_order "o1" "t0" "a@x.cl" "c1" "tok1" 1 None None]
  = Ok [mk_order "o1" "t0" "a@x.cl" "c1" "tok1" 1 None None;
        mk_order "o2" "t1" "b@x.cl" "c1" "tok2" 1 None None].
Proof. reflexivity. Qed.

(** *** [db_mark_paid] *)

Lemma mark_paid_where_iff (tok : string) (r : order) :
  mark_paid_where tok r = true
  <-> flow_token r = tok /\ (status r <> 2 \/ download_token r = None).
Proof.
  unfold mark_paid_where, has_flow_token.
  rewrite andb_true_iff, orb_true_iff, negb_true_iff, String.eqb_eq, Z.eqb_neq.
  destruct (download_token r); simpl; intuition congruence.
Qed.

(** The [WHERE] clause on an arbitrary row, consistent or not:
    [db_mark_paid] rewrites every order with that gateway token whose
    status is not 2 (paid) or whose download token is null; the row
    gets status 2, the candidate download token and the payment date,
    its other columns are kept.  Every other row is left as it is. *)
Theorem db_mark_paid_rewrites_unless_paid_with_token :
  forall (tok dl now : string) (t : table),
    Forall2
      (fun r r' =>
         (flow_token r = tok /\ (status r <> 2 \/ download_token r = None)
          /\ status r' = 2 /\ download_token r' = Some dl /\ paid_at r' = Some now
          /\ id r' = id r /\ created_at r' = created_at r /\ email r' = email r
          /\ commerce_order r' = commerce_order r /\ flow_token r' = flow_token r)
         \/ (~ (flow_token r = tok /\ (status r <> 2 \/ download_token r = None))
             /\ r' = r))
      t (db_mark_paid tok dl now t).
Proof.
  intros tok dl now t. unfold db_mark_paid.
  induction t as [|r t IH]; simpl; constructor; auto.
  destruct (mark_paid_where tok r) eqn:E.
  - left. apply mark_paid_where_iff in E. destruct E as [E1 E2].
    simpl. repeat split; auto.
  - right. split; auto. intros H. apply mark_paid_where_iff in H. congruence.
Qed.

(** On rows that the two writing statements never produce (paid without
    download token, unpaid with one) the clause is wider than "unpaid
    and without token". *)
Lemma db_mark_paid_rewrites_paid_or_tokened_order :
  db_mark_paid "tok" "new" "t1"
    [mk_order "o1" "t0" "a@x.cl" "c1" "tok" 2 None None;
     mk_order "o2" "t0" "b@x.cl" "c2" "tok" 1 (Some "old") None]
  = [mk_order "o1" "t0" "a@x.cl" "c1" "tok" 2 (Some "new") (Some "t1");
     mk_order "o2" "t0" "b@x.cl" "c2" "tok" 2 (Some "new") (Some "t1")].
Proof. reflexivity. Qed.

(** On a row in which "paid" and "has a download token" go together,
    the condition of the specification and the one of the code agree. *)
Lemma mark_paid_where_consistent (tok : string) (r : order) :
  (status r = 2 <-> download_token r <> None) ->
  (mark_paid_where tok r = true
   <-> flow_token r = tok /\ status r <> 2 /\ download_token r = None).
Proof.
  intros C. rewrite mark_paid_where_iff.
  destruct (download_token r) as [d|] eqn:D.
  - assert (status r = 2) by (apply C; discriminate).
    split; intros [H1 H2].
    + destruct H2 as [H2|H2]; [contradiction | discriminate].
    + destruct H2 as [_ H2]. discriminate.
  - assert (status r <> 2) by (intros E; apply C in E; congruence).
    tauto.
Qed.

(** *** The life of an order *)

(** The two shapes a row can have: created, without a download token,
    or paid, with one. *)
Definition row_ok (r : order) : Prop :=
  (status r = 1 /\ download_token r = None)
  \/ (status r = 2 /\ download_token r <> None).

Definition mark (tok dl now : string) (r : order) : order :=
  if mark_paid_where tok r then mark_paid_set dl now r else r.

Lemma mark_id tok dl now r : id (mark tok dl now r) = id r.
Proof. unfold mark. now destruct (mark_paid_where tok r). Qed.

Lemma mark_row_ok tok dl now r : row_ok r -> row_ok (mark tok dl now r).
Proof.
  unfold mark. destruct (mark_paid_where tok r); auto.
  intros _. right. simpl. split; [reflexivity | discriminate].
Qed.

(** A paid row is out of reach of [db_mark_paid]. *)
Lemma mark_paid_row tok dl now r :
  row_ok r -> status r = 2 -> mark tok dl now r = r.
Proof.
  intros [[H1 H2]|[H1 H2]] E; [congruence|].
  unfold mark, mark_paid_where.
  rewrite E. destruct (download_token r); [|contradiction].
  simpl. now rewrite andb_false_r.
Qed.

Lemma find_has_id_app i (t t' : table) r :
  find (has_id i) t = Some r -> find (has_id i) (t ++ t') = Some r.
Proof.
  induction t as [|x t IH]; simpl; [discriminate|].
  destruct (has_id i x); auto.
Qed.

Lemma find_has_id_app_none i (t t' : table) :
  find (has_id i) t = None -> find (has_id i) (t ++ t') = find (has_id i) t'.
Proof.
  induction t as [|x t IH]; simpl; auto.
  destruct (has_id i x); [discriminate | auto].
Qed.

Lemma find_has_id_map i (f : order -> order) (t : table) :
  (forall r, id (f r) = id r) ->
  find (has_id i) (map f t) = option_map f (find (has_id i) t).
Proof.
  intros Hf. induction t as [|x t IH]; simpl; auto.
  unfold has_id at 1. rewrite Hf. fold (has_id i x).
  destruct (has_id i x); auto.
Qed.

Lemma run_op_rows_ok o t : Forall row_ok t -> Forall row_ok (run_op o t).
Proof.
  intros H. destruct o as [i e c f now|f d now]; simpl.
  - unfold db_create_order. destruct (existsb (has_id i) t); auto.
    apply Forall_app. split; auto.
    constructor; [|constructor]. left. simpl. auto.
  - unfold db_mark_paid. apply Forall_forall. intros r' Hin.
    apply in_map_iff in Hin. destruct Hin as [r [<- Hin]].
    apply (mark_row_ok f d now). eapply Forall_forall; eauto.
Qed.

Lemma run_rows_ok ops : forall t, Forall row_ok t -> Forall row_ok (run ops t).
Proof.
  unfold run. induction ops as [|o ops IH]; simpl; auto.
  intros t H. apply IH. now apply run_op_rows_ok.
Qed.

(** The primary key: the ids of a table grown from the empty one are
    pairwise distinct, so [lookup] names one order. *)
Lemma run_op_ids_distinct o t : NoDup (map id t) -> NoDup (map id (run_op o t)).
Proof.
  intros H. destruct o as [i e c f now|f d now]; simpl.
  - unfold db_create_order. destruct (existsb (has_id i) t) eqn:E; auto.
    rewrite map_app. apply NoDup_app. repeat split; auto.
    + simpl. constructor; [intros []|constructor].
    + intros a Ha [<-|[]]. simpl in Ha.
      apply existsb_has_id in Ha. congruence.
  - unfold db_mark_paid. rewrite map_map.
    erewrite map_ext; [exact H|]. intros r. apply mark_id.
Qed.

Lemma run_ids_distinct ops : NoDup (map id (run ops db_init)).
Proof.
  unfold run. assert (H : NoDup (map id db_init)) by constructor.
  revert H. generalize db_init.
  induction ops as [|o ops IH]; simpl; auto.
  intros t H. apply IH. now apply run_op_ids_distinct.
Qed.

Lemma lookup_row_ok i t r : Forall row_ok t -> lookup i t = Some r -> row_ok r.
Proof.
  intros H L. apply find_some in L. destruct L as [Hin _].
  eapply Forall_forall; eauto.
Qed.

(** One statement on an order that is in the table: the order stays,
    and either nothing of it changes or it goes from created to paid
    and receives its download token. *)
Lemma lookup_run_op o i t r :
  Forall row_ok t -> lookup i t = Some r ->
  exists r', lookup i (run_op o t) = Some r'
    /\ (r' = r
        \/ (status r = 1 /\ download_token r = None
            /\ status r' = 2 /\ download_token r' <> None)).
Proof.
  intros Hok L. pose proof (lookup_row_ok _ _ _ Hok L) as Hr.
  destruct o as [j e c f now|f d now]; simpl.
  - exists r. split; [|now left].
    unfold db_create_order. destruct (existsb (has_id j) t); auto.
    now apply find_has_id_app.
  - exists (mark f d now r). split.
    + unfold lookup, db_mark_paid.
      rewrite (find_has_id_map i (mark f d now)) by apply mark_id.
      unfold lookup in L. now rewrite L.
    + destruct Hr as [[H1 H2]|[H1 H2]].
      * unfold mark. destruct (mark_paid_where f r); [right|now left].
        simpl. repeat split; auto. discriminate.
      * left. apply mark_paid_row; auto. right. auto.
Qed.

Lemma lookup_none_run_op o i t :
  lookup i t = None ->
  lookup i (run_op o t) = None
  \/ exists r', lookup i (run_op o t) = Some r' /\ status r' = 1.
Proof.
  intros L. destruct o as [j e c f now|f d now]; simpl.
  - unfold db_create_order. destruct (existsb (has_id j) t); auto.
    unfold lookup in *. rewrite find_has_id_app_none by assumption.
    simpl. destruct (has_id i _); [right|now left].
    eexists. split; [reflexivity|reflexivity].
  - left. unfold lookup, db_mark_paid in *.
    rewrite (find_has_id_map i (mark f d now)) by apply mark_id.
    now rewrite L.
Qed.

Lemma view_eqb_refl v : view_eqb v v = true.
Proof.
  destruct v as [[s [d|]]|]; simpl; auto.
  - now rewrite Z.eqb_refl, String.eqb_refl.
  - now rewrite Z.eqb_refl.
Qed.

Lemma trace_head ops t : exists tl, trace ops t = t :: tl.
Proof. destruct ops; simpl; eauto. Qed.

(** Count of the first step of a trace. *)
Lemma changes_step i o ops t :
  changes i (trace (o :: ops) t)
  = (match view i t with
     | Some v => if view_eqb (Some v) (view i (run_op o t)) then 0 else 1
     | None => 0
     end + changes i (trace ops (run_op o t)))%nat.
Proof.
  simpl. destruct (trace_head ops (run_op o t)) as [tl ->]. reflexivity.
Qed.

(** Once an order is paid, no statement changes it again. *)
Lemma changes_paid i ops :
  forall t r, Forall row_ok t -> lookup i t = Some r -> status r = 2 ->
              changes i (trace ops t) = 0%nat.
Proof.
  induction ops as [|o ops IH]; intros t r Hok L E; [reflexivity|].
  rewrite changes_step.
  destruct (lookup_run_op o i t r Hok L) as [r' [L' [->|[H1 _]]]]; [|congruence].
  unfold view. rewrite L, L'. cbn [option_map]; cbv beta iota. rewrite view_eqb_refl.
  simpl. eapply IH; eauto. now apply run_op_rows_ok.
Qed.

Lemma changes_at_most_once i ops :
  forall t, Forall row_ok t -> (changes i (trace ops t) <= 1)%nat.
Proof.
  induction ops as [|o ops IH]; intros t Hok; [simpl; lia|].
  rewrite changes_step.
  pose proof (run_op_rows_ok o t Hok) as Hok'.
  destruct (lookup i t) as [r|] eqn:L.
  - destruct (lookup_run_op o i t r Hok L) as [r' [L' [->|[_ [_ [H3 _]]]]]].
    + unfold view. rewrite L, L'. cbn [option_map]; cbv beta iota. rewrite view_eqb_refl.
      simpl. now apply IH.
    + rewrite (changes_paid i ops _ r' Hok' L' H3).
      unfold view. rewrite L. cbn [option_map]; cbv beta iota.
      destruct (view_eqb _ _); lia.
  - unfold view at 1. rewrite L. simpl. now apply IH.
Qed.

Lemma changes_exactly_once i ops :
  forall t r,
    Forall row_ok t ->
    (lookup i t = None \/ exists r0, lookup i t = Some r0 /\ status r0 = 1) ->
    lookup i (run ops t) = Some r -> status r = 2 ->
    changes i (trace ops t) = 1%nat.
Proof.
  induction ops as [|o ops IH]; intros t r Hok Hstart L E.
  - simpl in L. destruct Hstart as [H|[r0 [H1 H2]]]; congruence.
  - rewrite changes_step.
    pose proof (run_op_rows_ok o t Hok) as Hok'.
    change (run (o :: ops) t) with (run ops (run_op o t)) in L.
    destruct Hstart as [H|[r0 [H1 H2]]].
    + unfold view at 1. rewrite H. simpl.
      apply (IH _ r Hok'); auto.
      destruct (lookup_none_run_op o i t H) as [N|S]; auto.
    + destruct (lookup_run_op o i t r0 Hok H1) as [r' [L' [->|[_ [D0 [H3 D']]]]]].
      * unfold view. rewrite H1, L'. cbn [option_map]; cbv beta iota. rewrite view_eqb_refl.
        simpl. apply (IH _ r Hok'); eauto.
      * rewrite (changes_paid i ops _ r' Hok' L' H3).
        unfold view. rewrite H1, L'. simpl.
        rewrite H2, H3. reflexivity.
Qed.

(** C4: along every sequence of [db_create_order] and [db_mark_paid]
    from the empty table, an order that is in the table stays in it;
    a statement leaves its status alone or moves it from 1 (created) to
    2 (paid); a paid order stays paid; a download token that is set is
    kept; the status moves exactly when the download token goes from
    null to set; at every moment "paid" and "has a download token" go
    together; and over the whole sequence the order changes at most
    once, exactly once when it ends up paid. *)
Theorem order_moves_created_to_paid_once :
  forall (ops : list op) (i : string),
    (forall (o : op) (r : order),
        lookup i (run ops db_init) = Some r ->
        exists r',
          lookup i (run_op o (run ops db_init)) = Some r'
          /\ (status r' = status r \/ (status r = 1 /\ status r' = 2))
          /\ (status r = 2 -> status r' = 2)
          /\ (forall d, download_token r = Some d -> download_token r' = Some d)
          /\ (status r' <> status r
              <-> download_token r = None /\ download_token r' <> None))
    /\ (forall r, lookup i (run ops db_init) = Some r ->
                  (status r = 2 <-> download_token r <> None)
                  /\ (status r = 1 \/ status r = 2))
    /\ (changes i (trace ops db_init) <= 1)%nat
    /\ (forall r, lookup i (run ops db_init) = Some r -> status r = 2 ->
                  changes i (trace ops db_init) = 1%nat).
Proof.
  intros ops i.
  assert (Hok : Forall row_ok (run ops db_init))
    by (apply run_rows_ok; constructor).
  split; [|split; [|split]].
  - intros o r L. pose proof (lookup_row_ok _ _ _ Hok L) as Hr.
    destruct (lookup_run_op o i _ r Hok L) as [r' [L' Hstep]].
    exists r'. split; [exact L'|].
    destruct Hstep as [->|[H1 [H2 [H3 H4]]]].
    + split; [now left|]. split; [auto|]. split; [auto|].
      split; [intros N; now contradiction N|].
      intros [D1 D2]. contradiction.
    + split; [right; auto|]. split; [auto|].
      split; [intros d D; congruence|].
      split; [auto | congruence].
  - intros r L. destruct (lookup_row_ok _ _ _ Hok L) as [[H1 H2]|[H1 H2]].
    + split; [|now left]. split; [congruence|]. intros D. contradiction.
    + split; [|now right]. split; auto.
  - apply changes_at_most_once. constructor.
  - intros r L E. apply (changes_exactly_once i ops db_init r); auto.
Qed.

(** The scenario of the specification: an order is created, paid, and
    a second [db_mark_paid] with another token finds it paid. *)
Lemma order_moves_created_to_paid_once_witness :
  changes "o1"
    (trace [Create "o1" "a@x.cl" "c1" "tok" "t0";
            MarkPaid "tok" "d1" "t1";
            MarkPaid "tok" "d2" "t2"] db_init) = 1%nat.
Proof.
  apply (proj2 (proj2 (proj2
           (order_moves_created_to_paid_once
              [Create "o1" "a@x.cl" "c1" "tok" "t0";
               MarkPaid "tok" "d1" "t1";
               MarkPaid "tok" "d2" "t2"] "o1")))
           (mk_order "o1" "t0" "a@x.cl" "c1" "tok" 2 (Some "d1") (Some "t1")));
    reflexivity.
Defined.

(** *** [db_mark_paid] on the orders the store can hold *)

Lemma db_mark_paid_rows_ok (tok dl now : string) (t : table) :
  Forall row_ok t ->
  Forall2
    (fun r r' =>
       (flow_token r = tok /\ status r <> 2 /\ download_token r = None
        /\ status r' = 2 /\ download_token r' = Some dl /\ paid_at r' = Some now
        /\ id r' = id r /\ created_at r' = created_at r /\ email r' = email r
        /\ commerce_order r' = commerce_order r /\ flow_token r' = flow_token r)
       \/ (~ (flow_token r = tok /\ status r <> 2 /\ download_token r = None)
           /\ r' = r))
    t (db_mark_paid tok dl now t).
Proof.
  unfold db_mark_paid. induction 1 as [|r t Hr Ht IH]; simpl; constructor; auto.
  assert (C : status r = 2 <-> download_token r <> None).
  { destruct Hr as [[H1 H2]|[H1 H2]]; split; intros H; congruence. }
  destruct (mark_paid_where tok r) eqn:E.
  - left. apply (mark_paid_where_consistent tok r C) in E.
    destruct E as [E1 [E2 E3]]. simpl. repeat split; auto.
  - right. split; auto. intros H.
    apply (mark_paid_where_consistent tok r C) in H. congruence.
Qed.

(** C2 (amended): on every table the store can hold (any sequence of
    [db_create_order] and [db_mark_paid] from the empty table) and for
    every gateway token and candidate download token, [db_mark_paid]
    sets status 2 (paid), the candidate download token and the payment
    date on an order only if its status is not already 2 and it has no
    download token, and it does so on every such order of the gateway
    token, keeping the other columns; every other order is left as it
    is.  The call evaluates to [None]: it returns no boolean and
    reports nothing about whether the update took effect. *)
Theorem db_mark_paid_on_stored_orders :
  forall (ops : list op) (tok dl now : string),
    Forall2
      (fun r r' =>
         (flow_token r = tok /\ status r <> 2 /\ download_token r = None
          /\ status r' = 2 /\ download_token r' = Some dl /\ paid_at r' = Some now
          /\ id r' = id r /\ created_at r' = created_at r /\ email r' = email r
          /\ commerce_order r' = commerce_order r /\ flow_token r' = flow_token r)
         \/ (~ (flow_token r = tok /\ status r <> 2 /\ download_token r = None)
             /\ r' = r))
      (run ops db_init) (snd (db_mark_paid_call tok dl now (run ops db_init)))
    /\ fst (db_mark_paid_call tok dl now (run ops db_init)) = JNull.
Proof.
  intros ops tok dl now. split; [|reflexivity].
  apply db_mark_paid_rows_ok. apply run_rows_ok. constructor.
Qed.

(** C2 as stated fails on the returned value: on a stored order that is
    created the call applies the update, on the same order once paid a
    second call applies nothing, and both calls evaluate to [None]; no
    boolean tells the two apart. *)
Lemma db_mark_paid_call_reports_nothing :
  db_mark_paid_call "tok" "d1" "t1"
    (run [Create "o1" "a@x.cl" "c1" "tok" "t0"] db_init)
  = (JNull,
     [mk_order "o1" "t0" "a@x.cl" "c1" "tok" 2 (Some "d1") (Some "t1")])
  /\ run [Create "o1" "a@x.cl" "c1" "tok" "t0"] db_init
     = [mk_order "o1" "t0" "a@x.cl" "c1" "tok" 1 None None]
  /\ db_mark_paid_call "tok" "d2" "t2"
       (run [Create "o1" "a@x.cl" "c1" "tok" "t0"; MarkPaid "tok" "d1" "t1"]
            db_init)
     = (JNull,
        [mk_order "o1" "t0" "a@x.cl" "c1" "tok" 2 (Some "d1") (Some "t1")])
  /\ run [Create "o1" "a@x.cl" "c1" "tok" "t0"; MarkPaid "tok" "d1" "t1"]
         db_init
     = [mk_order "o1" "t0" "a@x.cl" "c1" "tok" 2 (Some "d1") (Some "t1")].
Proof.
  split; [|split; [|split]]; vm_compute; reflexivity.
Qed.

End DbFacts.

(* ================================================================== *)
(** ** The gateway calls *)
(* ================================================================== *)

Module GatewayFacts.
Import Py Signer Gateway.

(** A configuration with every setting present, and the same one with
    the gateway credentials left out. *)
Definition shop : Config :=
  mk_config "https://sandbox.flow.cl/api" "key" "secret"
            "https://shop.example" "https://shop.example"
            "products/pack_ia_pymes_2026.zip"
            "smtp.example" 587 "user" "pass" "shop@example.cl".

Definition shop_without_credentials : Config :=
  mk_config "https://sandbox.flow.cl/api" "" ""
            "https://shop.example" "https://shop.example"
            "products/pack_ia_pymes_2026.zip"
            "smtp.example" 587 "user" "pass" "shop@example.cl".

(** A stand-in for the keyed hash in concrete runs. *)
Definition tag (key msg : string) : string := key ++ ":" ++ msg.

(** Gateways that answer every request the same way. *)
Definition answers (code : Z) (text : string) (decoded : option json) : gateway :=
  fun _ => Reply code text decoded.

Definition unreachable : gateway :=
  fun _ => NetworkError "requests.exceptions.ConnectTimeout".

Definition says_status (st : Z) : gateway :=
  answers 200 "status" (Some (JDict [("status", JInt st)])).

(** The part of the error taxonomy the two calls share: a status other
    than 200 and a body that is not JSON are both raised as
    [HTTPException(400)], an exception of [requests] goes through. *)
Lemma flow_get_status_outcomes hmac cfg gw token :
  match gw (mk_request GET (FLOW_API_URL cfg ++ "/payment/getStatus")
              [("apiKey", VStr (FLOW_API_KEY cfg)); ("token", VStr token);
               ("s", VStr (flow_sign hmac
                             [("apiKey", VStr (FLOW_API_KEY cfg));
                              ("token", VStr token)]
                             (FLOW_SECRET_KEY cfg)))]) with
  | NetworkError cls => flow_get_status hmac cfg gw token = Raise (PyError cls)
  | Reply code text decoded =>
    (code <> 200 ->
     flow_get_status hmac cfg gw token
     = Raise (HTTPException 400 ("Flow status error: " ++ text)))
    /\ (code = 200 -> decoded = None ->
        flow_get_status hmac cfg gw token
        = Raise (HTTPException 400 ("Flow status response no-JSON: " ++ text)))
    /\ (forall data, code = 200 -> decoded = Some data ->
                     flow_get_status hmac cfg gw token = Ok data)
  end.
Proof.
  unfold flow_get_status. simpl setitem.
  destruct (gw _) as [cls|code text decoded]; [reflexivity|].
  split; [|split].
  - intros N. apply Z.eqb_neq in N. now rewrite N.
  - intros -> ->. reflexivity.
  - intros data -> ->. reflexivity.
Qed.

(** [flow_get_status] never raises the configuration error of
    [flow_post]: its only [HTTPException]s carry status 400. *)
Lemma flow_get_status_raises_400_only hmac cfg gw token code detail :
  flow_get_status hmac cfg gw token = Raise (HTTPException code detail) ->
  code = 400.
Proof.
  unfold flow_get_status.
  destruct (gw _) as [cls|c text decoded]; [discriminate|].
  destruct (negb (c =? 200)); [congruence|].
  destruct decoded; congruence.
Qed.

(** C8, at the failing input: with the credentials unset and a gateway
    that answers 401, [flow_post] raises the configuration error (500)
    without calling the gateway, while [flow_get_status] signs with the
    empty secret, calls the gateway and raises the HTTP error (400);
    when the gateway answers 200 it even returns the decoded body. *)
Theorem flow_get_status_skips_credentials_check :
  flow_post tag shop_without_credentials (answers 401 "apiKey not found" None)
            "/payment/getStatus" [("token", VStr "tok")]
  = Raise (HTTPException 500
             "FLOW_API_KEY / FLOW_SECRET_KEY no configuradas en .env")
  /\ flow_get_status tag shop_without_credentials
                     (answers 401 "apiKey not found" None) "tok"
     = Raise (HTTPException 400 "Flow status error: apiKey not found")
  /\ flow_get_status tag shop_without_credentials (says_status 2) "tok"
     = Ok (JDict [("status", JInt 2)]).
Proof. repeat split. Qed.

End GatewayFacts.

(* ================================================================== *)
(** ** The handlers *)
(* ================================================================== *)

Module AppFacts.
Import Py Signer Db Gateway Utils App GatewayFacts.
Local Open Scope list_scope.

Ltac run_handler :=
  unfold serve, bind, lift, query, execute, add_task, ret, raise; simpl.

Lemma nonempty_app_char (a : string) (c : ascii) (b : string) :
  nonempty (a ++ String c b)%string = true.
Proof. destruct a; reflexivity. Qed.

(** A minted download token is never the empty string. *)
Lemma hex_fixed_nonempty (w : nat) (v : N) :
  nonempty (hex_fixed (S w) v) = true.
Proof. cbn [hex_fixed]. apply nonempty_app_char. Qed.

Lemma uuid_hex_nonempty (u : N) : nonempty (uuid_hex u) = true.
Proof. unfold uuid_hex. exact (hex_fixed_nonempty 31 u). Qed.

Lemma find_map_stable (p : order -> bool) (f : order -> order) (t : table) :
  (forall r, p (f r) = p r) ->
  find p (map f t) = option_map f (find p t).
Proof.
  intros Hf. induction t as [|x t IH]; simpl; auto.
  rewrite Hf. destruct (p x); auto.
Qed.

Lemma has_flow_token_mark tok tok' dl now r :
  has_flow_token tok (DbFacts.mark tok' dl now r) = has_flow_token tok r.
Proof.
  unfold DbFacts.mark. now destruct (mark_paid_where tok' r).
Qed.

(** After [db_mark_paid], the order that [db_get_by_flow_token] finds is
    the one it found before; if it had no download token it is now paid
    and carries the candidate. *)
Lemma db_get_by_flow_token_after_mark tok dl now t oid email st :
  db_get_by_flow_token tok t = Some (oid, email, st, None) ->
  db_get_by_flow_token tok (db_mark_paid tok dl now t)
  = Some (oid, email, 2, Some dl).
Proof.
  unfold db_get_by_flow_token, db_mark_paid. intros H.
  change (fun r => if mark_paid_where tok r then mark_paid_set dl now r else r)
    with (DbFacts.mark tok dl now).
  rewrite find_map_stable by (intros; apply has_flow_token_mark).
  destruct (find (has_flow_token tok) t) as [r|] eqn:F; [|discriminate].
  simpl in H. injection H as <- <- <- D.
  apply find_some in F. destruct F as [_ F].
  simpl. unfold DbFacts.mark, mark_paid_where.
  rewrite F, D. simpl. rewrite orb_true_r. reflexivity.
Qed.

(** *** [flow_confirmation] *)

Definition ok_body : json := JDict [("ok", JBool true)].

Definition link_mail (cfg : Config) (to download_token : string) : email_task :=
  mk_task to mail_subject
          (mail_body (DOWNLOAD_BASE_URL cfg ++ "/download/" ++ download_token)%string).

(** One paid callback for an order that is found. *)
Lemma flow_confirmation_paid hmac cfg gw u now form_token t
      oid email st existing s :
  nonempty (token_of_form form_token) = true ->
  flow_get_status hmac cfg gw (token_of_form form_token) = Ok s ->
  status_code_of s = Ok 2 ->
  db_get_by_flow_token (token_of_form form_token) t
  = Some (oid, email, st, existing) ->
  serve (flow_confirmation hmac cfg gw u now form_token) t
  = match existing with
    | Some d =>
      if nonempty d then (Ok (JSONResponse ok_body 200), t, [link_mail cfg email d])
      else (Ok (JSONResponse ok_body 200),
            db_mark_paid (token_of_form form_token) (uuid_hex u) now t,
            [link_mail cfg email (uuid_hex u)])
    | None =>
      (Ok (JSONResponse ok_body 200),
       db_mark_paid (token_of_form form_token) (uuid_hex u) now t,
       [link_mail cfg email (uuid_hex u)])
    end.
Proof.
  intros Htok Hgw Hst Hrow. unfold flow_confirmation.
  rewrite Htok. simpl negb. cbv iota. run_handler.
  rewrite Hgw, Hst, Hrow. simpl.
  destruct existing as [d|]; [destruct (nonempty d)|]; reflexivity.
Qed.

(** C1 (amended): two confirmation callbacks in a row for the same
    token, the gateway reporting status 2 (paid) both times, for an
    order that is found with no download token yet or with one already:
    both are answered 200; the table is written at most by the first,
    and only when the order had no token, which marks it paid with the
    token minted by the first callback; the second callback leaves the
    table as the first left it and its own token is never stored; and
    EACH callback schedules one notification to the stored address,
    both with the same download link. *)
Theorem confirmation_twice_pays_once_mails_twice :
  forall hmac cfg gw1 gw2 (u1 u2 : N) (now1 now2 : string)
         (form_token : option string) (t : table)
         (oid email : string) (st : Z) (existing : option string) s1 s2,
    nonempty (token_of_form form_token) = true ->
    flow_get_status hmac cfg gw1 (token_of_form form_token) = Ok s1 ->
    status_code_of s1 = Ok 2 ->
    flow_get_status hmac cfg gw2 (token_of_form form_token) = Ok s2 ->
    status_code_of s2 = Ok 2 ->
    db_get_by_flow_token (token_of_form form_token) t
    = Some (oid, email, st, existing) ->
    (existing = None \/ exists d, existing = Some d /\ nonempty d = true) ->
    exists (t1 : table) (dl : string),
      serve (flow_confirmation hmac cfg gw1 u1 now1 form_token) t
      = (Ok (JSONResponse ok_body 200), t1, [link_mail cfg email dl])
      /\ serve (flow_confirmation hmac cfg gw2 u2 now2 form_token) t1
         = (Ok (JSONResponse ok_body 200), t1, [link_mail cfg email dl])
      /\ t1 = match existing with
              | None => db_mark_paid (token_of_form form_token) (uuid_hex u1) now1 t
              | Some _ => t
              end
      /\ dl = match existing with None => uuid_hex u1 | Some d => d end
      /\ (existing = None ->
          db_get_by_flow_token (token_of_form form_token) t1
          = Some (oid, email, 2, Some (uuid_hex u1))).
Proof.
  intros hmac cfg gw1 gw2 u1 u2 now1 now2 form_token t oid email st existing
         s1 s2 Htok Hgw1 Hst1 Hgw2 Hst2 Hrow Hex.
  destruct Hex as [->|[d [-> Hd]]].
  - exists (db_mark_paid (token_of_form form_token) (uuid_hex u1) now1 t),
           (uuid_hex u1).
    pose proof (db_get_by_flow_token_after_mark _ (uuid_hex u1) now1 _ _ _ _ Hrow)
      as Hrow1.
    split; [|split; [|repeat split]].
    + now rewrite (flow_confirmation_paid _ _ _ _ _ _ _ _ _ _ _ _ Htok Hgw1 Hst1 Hrow).
    + rewrite (flow_confirmation_paid _ _ _ _ _ _ _ _ _ _ _ _ Htok Hgw2 Hst2 Hrow1).
      now rewrite uuid_hex_nonempty.
    + intros _. exact Hrow1.
  - exists t, d. split; [|split; [|repeat split]].
    + rewrite (flow_confirmation_paid _ _ _ _ _ _ _ _ _ _ _ _ Htok Hgw1 Hst1 Hrow).
      now rewrite Hd.
    + rewrite (flow_confirmation_paid _ _ _ _ _ _ _ _ _ _ _ _ Htok Hgw2 Hst2 Hrow).
      now rewrite Hd.
    + discriminate.
Qed.

(** A table with one order, created, and the same order once the first
    callback has marked it paid. *)
Definition created_table : table :=
  [mk_order "o1" "t0" "a@x.cl" "c1" "tok" 1 None None].

Definition paid_table : table :=
  [mk_order "o1" "t0" "a@x.cl" "c1" "tok" 2
            (Some "00000000000000000000000000000001") (Some "t1")].

Lemma confirmation_twice_pays_once_mails_twice_witness :
  exists (t1 : table) (dl : string),
    serve (flow_confirmation tag shop (says_status 2) 1 "t1" (Some "tok"))
          created_table
    = (Ok (JSONResponse ok_body 200), t1, [link_mail shop "a@x.cl" dl])
    /\ serve (flow_confirmation tag shop (says_status 2) 2 "t2" (Some "tok")) t1
       = (Ok (JSONResponse ok_body 200), t1, [link_mail shop "a@x.cl" dl])
    /\ t1 = db_mark_paid "tok" (uuid_hex 1) "t1" created_table
    /\ dl = uuid_hex 1
    /\ (@None string = None ->
        db_get_by_flow_token "tok" t1
        = Some ("o1", "a@x.cl", 2, Some (uuid_hex 1))).
Proof.
  apply (confirmation_twice_pays_once_mails_twice
           tag shop (says_status 2) (says_status 2) 1 2 "t1" "t2" (Some "tok")
           created_table "o1" "a@x.cl" 1 None
           (JDict [("status", JInt 2)]) (JDict [("status", JInt 2)]));
    try reflexivity.
  left. reflexivity.
Defined.

(** C1 as stated fails: the second callback writes nothing to the table
    (the order is already paid, [db_mark_paid] is not even called), yet
    it schedules a notification like the first did; with SMTP configured
    both are sent, so two notifications leave for one payment. *)
Lemma confirmation_twice_schedules_two_mails :
  serve (flow_confirmation tag shop (says_status 2) 1 "t1" (Some "tok"))
        created_table
  = (Ok (JSONResponse ok_body 200), paid_table,
     [link_mail shop "a@x.cl" "00000000000000000000000000000001"])
  /\ serve (flow_confirmation tag shop (says_status 2) 2 "t2" (Some "tok"))
           paid_table
     = (Ok (JSONResponse ok_body 200), paid_table,
        [link_mail shop "a@x.cl" "00000000000000000000000000000001"])
  /\ map (send_email shop)
         (snd (serve (flow_confirmation tag shop (says_status 2) 1 "t1"
                                        (Some "tok")) created_table)
          ++ snd (serve (flow_confirmation tag shop (says_status 2) 2 "t2"
                                           (Some "tok")) paid_table))
     = [Sent "shop@example.cl" "a@x.cl" mail_subject
             (mail_body "https://shop.example/download/00000000000000000000000000000001");
        Sent "shop@example.cl" "a@x.cl" mail_subject
             (mail_body "https://shop.example/download/00000000000000000000000000000001")].
Proof.
  split; [|split]; vm_compute; reflexivity.
Qed.

(** Whenever the status check and the conversion of the status go
    through, the callback is answered 200, the order found or not; and
    so is a callback without a token. *)
Lemma flow_confirmation_answers_200 hmac cfg gw u now form_token t :
  (nonempty (token_of_form form_token) = false ->
   http_status (fst (fst (serve (flow_confirmation hmac cfg gw u now form_token) t)))
   = 200)
  /\ (forall s st,
        flow_get_status hmac cfg gw (token_of_form form_token) = Ok s ->
        status_code_of s = Ok st ->
        http_status
          (fst (fst (serve (flow_confirmation hmac cfg gw u now form_token) t)))
        = 200).
Proof.
  split.
  - intros E. unfold flow_confirmation. rewrite E. reflexivity.
  - intros s st Hgw Hst. unfold flow_confirmation.
    destruct (nonempty (token_of_form form_token)); [|reflexivity].
    simpl negb. cbv iota. run_handler. rewrite Hgw, Hst.
    destruct (db_get_by_flow_token _ t) as [[[[oid email] st0] existing]|];
      [|reflexivity].
    destruct (st =? 2); [|reflexivity].
    destruct existing as [d|]; [destruct (nonempty d)|]; reflexivity.
Qed.

(** An order that is not in the table: the callback is answered 200
    with the warning and writes nothing. *)
Lemma flow_confirmation_unknown_order hmac cfg gw u now form_token t s st :
  nonempty (token_of_form form_token) = true ->
  flow_get_status hmac cfg gw (token_of_form form_token) = Ok s ->
  status_code_of s = Ok st ->
  db_get_by_flow_token (token_of_form form_token) t = None ->
  serve (flow_confirmation hmac cfg gw u now form_token) t
  = (Ok (JSONResponse
           (JDict [("ok", JBool true); ("warn", JStr "order_not_found")]) 200),
     t, []).
Proof.
  intros Htok Hgw Hst Hrow. unfold flow_confirmation.
  rewrite Htok. simpl negb. cbv iota. run_handler.
  now rewrite Hgw, Hst, Hrow.
Qed.

(** The exception of a failed status check leaves the handler as it
    is, before the table is read. *)
Lemma flow_confirmation_propagates_status_error
      hmac cfg gw u now form_token t e :
  nonempty (token_of_form form_token) = true ->
  flow_get_status hmac cfg gw (token_of_form form_token) = Raise e ->
  serve (flow_confirmation hmac cfg gw u now form_token) t = (Raise e, t, []).
Proof.
  intros Htok Hgw. unfold flow_confirmation.
  rewrite Htok. simpl negb. cbv iota. run_handler. now rewrite Hgw.
Qed.

(** A status other than 2 (pending, rejected, voided, or anything else):
    the callback is answered 200, writes nothing and schedules nothing. *)
Lemma flow_confirmation_unpaid_changes_nothing
      hmac cfg gw u now form_token t s st :
  nonempty (token_of_form form_token) = true ->
  flow_get_status hmac cfg gw (token_of_form form_token) = Ok s ->
  status_code_of s = Ok st ->
  st <> 2 ->
  exists content,
    serve (flow_confirmation hmac cfg gw u now form_token) t
    = (Ok (JSONResponse content 200), t, []).
Proof.
  intros Htok Hgw Hst N. apply Z.eqb_neq in N. unfold flow_confirmation.
  rewrite Htok. simpl negb. cbv iota. run_handler. rewrite Hgw, Hst.
  destruct (db_get_by_flow_token _ t) as [[[[oid email] st0] existing]|];
    [|eauto].
  rewrite N. eauto.
Qed.

Lemma flow_confirmation_unpaid_changes_nothing_witness :
  exists content,
    serve (flow_confirmation tag shop (says_status 3) 1 "t1" (Some "tok"))
          created_table
    = (Ok (JSONResponse content 200), created_table, []).
Proof.
  apply (flow_confirmation_unpaid_changes_nothing
           tag shop (says_status 3) 1 "t1" (Some "tok") created_table
           (JDict [("status", JInt 3)]) 3); try reflexivity.
  discriminate.
Defined.

Lemma flow_confirmation_unknown_order_witness :
  serve (flow_confirmation tag shop (says_status 2) 1 "t1" (Some "other"))
        created_table
  = (Ok (JSONResponse
           (JDict [("ok", JBool true); ("warn", JStr "order_not_found")]) 200),
     created_table, []).
Proof.
  apply (flow_confirmation_unknown_order
           tag shop (says_status 2) 1 "t1" (Some "other") created_table
           (JDict [("status", JInt 2)]) 2); reflexivity.
Defined.

(** C3, at the failing inputs: a callback with a token present, while
    the gateway answers the status check with 500, is answered 400 and
    not 200, the [HTTPException] of [flow_get_status] leaving the
    handler; if the gateway cannot be reached, or answers with a body
    whose status does not convert to an integer, the callback is
    answered 500. *)
Theorem flow_confirmation_raises_when_status_check_fails :
  serve (flow_confirmation tag shop (answers 500 "Internal Server Error" None)
                           1 "t1" (Some "tok")) created_table
  = (Raise (HTTPException 400 "Flow status error: Internal Server Error"),
     created_table, [])
  /\ http_status
       (fst (fst (serve (flow_confirmation tag shop
                           (answers 500 "Internal Server Error" None)
                           1 "t1" (Some "tok")) created_table)))
     = 400
  /\ http_status
       (fst (fst (serve (flow_confirmation tag shop unreachable
                           1 "t1" (Some "tok")) created_table)))
     = 500
  /\ http_status
       (fst (fst (serve (flow_confirmation tag shop
                           (answers 200 "null" (Some JNull))
                           1 "t1" (Some "tok")) created_table)))
     = 500.
Proof.
  split; [|split; [|split]]; vm_compute; reflexivity.
Qed.

(** *** [flow_return] *)

Definition message_body (ok : bool) (message : string) : json :=
  JDict [("ok", JBool ok); ("message", JStr message)].





(** *** [download] *)

(** [r] is the order the query of [download] selects for [dl]: the
    first row, in table order, with that download token. *)
Definition selected (dl : string) (t : table) (r : order) : Prop :=
  exists before after,
    t = before ++ r :: after
    /\ download_token r = Some dl
    /\ forall x, In x before -> download_token x <> Some dl.

Lemma has_download_token_iff dl r :
  has_download_token dl r = true <-> download_token r = Some dl.
Proof.
  unfold has_download_token. destruct (download_token r) as [d|].
  - rewrite String.eqb_eq. split; congruence.
  - split; discriminate.
Qed.

Lemma find_selected dl t r :
  selected dl t r -> find (has_download_token dl) t = Some r.
Proof.
  intros [before [after [-> [Hr Hb]]]].
  induction before as [|x before IH]; simpl.
  - apply has_download_token_iff in Hr. now rewrite Hr.
  - destruct (has_download_token dl x) eqn:E.
    + apply has_download_token_iff in E. exfalso. apply (Hb x); simpl; auto.
    + apply IH. intros y Hy. apply Hb. simpl. auto.
Qed.

Lemma find_none_download_token dl t :
  (forall r, In r t -> download_token r <> Some dl) ->
  find (has_download_token dl) t = None.
Proof.
  intros H. induction t as [|x t IH]; simpl; auto.
  destruct (has_download_token dl x) eqn:E.
  - apply has_download_token_iff in E. exfalso. apply (H x); simpl; auto.
  - apply IH. intros r Hr. apply H. simpl. auto.
Qed.

(** C7: [download] answers 404 when no order has the token; with [r]
    the order selected for the token, 403 when [r] is not paid, 500 when
    it is paid and the product file does not exist, and otherwise the
    product file as [application/zip] under its base name.  It never
    writes to the table, and a file is only ever returned for a token
    that belongs to a paid order. *)
Theorem download_answers_by_order_state :
  forall cfg (path_exists : string -> bool) (dl : string) (t : table),
    ((forall r, In r t -> download_token r <> Some dl) ->
     serve (download cfg path_exists dl) t
     = (Raise (HTTPException 404 "Link inválido o expirado"), t, []))
    /\ (forall r, selected dl t r ->
          (status r <> 2 ->
           serve (download cfg path_exists dl) t
           = (Raise (HTTPException 403 "Pago no confirmado"), t, []))
          /\ (status r = 2 -> path_exists (PRODUCT_FILE cfg) = false ->
              serve (download cfg path_exists dl) t
              = (Raise (HTTPException 500
                          ("No existe el archivo del producto: "
                           ++ PRODUCT_FILE cfg)%string), t, []))
          /\ (status r = 2 -> path_exists (PRODUCT_FILE cfg) = true ->
              serve (download cfg path_exists dl) t
              = (Ok (FileResponse (PRODUCT_FILE cfg) "application/zip"
                                  (basename (PRODUCT_FILE cfg))), t, [])))
    /\ (forall path media filename,
          fst (fst (serve (download cfg path_exists dl) t))
          = Ok (FileResponse path media filename) ->
          exists r, In r t /\ download_token r = Some dl /\ status r = 2).
Proof.
  intros cfg path_exists dl t. split; [|split].
  - intros Hnone. unfold download, db_get_by_download_token. run_handler.
    now rewrite (find_none_download_token dl t Hnone).
  - intros r Hsel. apply find_selected in Hsel.
    unfold download, db_get_by_download_token. run_handler. rewrite Hsel.
    simpl. split; [|split].
    + intros N. apply Z.eqb_neq in N. now rewrite N.
    + intros -> ->. reflexivity.
    + intros -> ->. reflexivity.
  - intros path media filename.
    unfold download, db_get_by_download_token. run_handler.
    destruct (find (has_download_token dl) t) as [r|] eqn:F; simpl;
      [|discriminate].
    apply find_some in F. destruct F as [Hin Htok].
    apply has_download_token_iff in Htok.
    destruct (status r =? 2) eqn:E; simpl; [|discriminate].
    intros _. exists r. apply Z.eqb_eq in E. auto.
Qed.

Lemma download_answers_by_order_state_witness :
  serve (download shop (fun _ => true) "00000000000000000000000000000001")
        paid_table
  = (Ok (FileResponse "products/pack_ia_pymes_2026.zip" "application/zip"
                      "pack_ia_pymes_2026.zip"), paid_table, []).
Proof.
  assert (Hsel : selected "00000000000000000000000000000001" paid_table
                   (mk_order "o1" "t0" "a@x.cl" "c1" "tok" 2
                      (Some "00000000000000000000000000000001") (Some "t1"))).
  { exists [], []. split; [reflexivity|]. split; [reflexivity|]. intros x []. }
  exact (proj2 (proj2
           (proj1 (proj2
                     (download_answers_by_order_state
                        shop (fun _ => true) "00000000000000000000000000000001"
                        paid_table))
                  _ Hsel))
           eq_refl eq_refl).
Defined.

(** *** [pay_create] *)

(** Stand-ins for [str.lower] and [repr] in concrete runs. *)
Fixpoint lower_ascii (s : string) : string :=
  match s with
  | EmptyString => EmptyString
  | String c s' =>
    let n := N_of_ascii c in
    String (if ((65 <=? n) && (n <=? 90))%N then ascii_of_N (n + 32) else c)
           (lower_ascii s')
  end.

Definition no_repr (v : json) : string := "...".

(** The request [pay_create] puts to the gateway, through [flow_post],
    for the order ids drawn and the normalised address: the parameters
    of the checkout with the API key added, signed. *)
Definition checkout_request (hmac : string -> string -> string) (cfg : Config)
    (commerce_order order_id email : string) : http_request :=
  let params :=
    setitem (pay_create_params cfg commerce_order order_id email)
            "apiKey" (VStr (FLOW_API_KEY cfg)) in
  mk_request POST (FLOW_API_URL cfg ++ "/payment/create")%string
    (setitem params "s"
       (VStr (flow_sign hmac params (FLOW_SECRET_KEY cfg)))).

Lemma flow_post_asks hmac cfg gw commerce_order order_id email :
  flow_post hmac cfg gw "/payment/create"
            (pay_create_params cfg commerce_order order_id email)
  = if negb (nonempty (FLOW_API_KEY cfg)) || negb (nonempty (FLOW_SECRET_KEY cfg))
    then Raise (HTTPException 500
                  "FLOW_API_KEY / FLOW_SECRET_KEY no configuradas en .env")
    else match gw (checkout_request hmac cfg commerce_order order_id email) with
         | NetworkError cls => Raise (PyError cls)
         | Reply code text decoded =>
           if negb (code =? 200)
           then Raise (HTTPException 400 ("Flow error: " ++ text)%string)
           else match decoded with
                | Some data => Ok data
                | None =>
                  Raise (HTTPException 400
                           ("Flow response no-JSON: " ++ text)%string)
                end
         end.
Proof. reflexivity. Qed.

(** The ways the gateway call of one checkout can fail: a credential is
    not set; or the gateway, asked the request of this checkout, cannot
    be reached, answers with a status other than 200, or answers with a
    body that is not JSON.  Nothing is said of what the gateway answers
    to any other request. *)
Definition gateway_call_fails (hmac : string -> string -> string)
    (cfg : Config) (gw : gateway) (commerce_order order_id email : string)
    : Prop :=
  FLOW_API_KEY cfg = EmptyString
  \/ FLOW_SECRET_KEY cfg = EmptyString
  \/ match gw (checkout_request hmac cfg commerce_order order_id email) with
     | NetworkError _ => True
     | Reply code _ decoded => code <> 200 \/ decoded = None
     end.

Lemma flow_post_fails hmac cfg gw commerce_order order_id email :
  gateway_call_fails hmac cfg gw commerce_order order_id email ->
  exists e,
    flow_post hmac cfg gw "/payment/create"
              (pay_create_params cfg commerce_order order_id email)
    = Raise e.
Proof.
  rewrite flow_post_asks. intros [K|[K|F]].
  - rewrite K. simpl. eauto.
  - rewrite K. simpl. rewrite orb_true_r. eauto.
  - destruct (_ || _); [eauto|].
    destruct (gw _) as [cls|code text decoded]; [eauto|].
    destruct F as [N| ->].
    + apply Z.eqb_neq in N. rewrite N. simpl. eauto.
    + destruct (negb (code =? 200)); eauto.
Qed.

(** Whatever makes [pay_create] raise, the table is as it was: the
    [INSERT] is its last effect, and a refused [INSERT] is rolled back. *)
Lemma pay_create_raise_writes_nothing hmac lower repr cfg gw u1 u2 now payload t e :
  fst (fst (serve (pay_create hmac lower repr cfg gw u1 u2 now payload) t))
  = Raise e ->
  serve (pay_create hmac lower repr cfg gw u1 u2 now payload) t = (Raise e, t, []).
Proof.
  unfold pay_create. run_handler.
  destruct (email_field payload) as [s|e0]; simpl; [|congruence].
  destruct (is_valid_email _); simpl; [|congruence].
  destruct (nonempty (PUBLIC_BASE_URL cfg)); simpl; [|congruence].
  destruct (flow_post _ _ _ _ _) as [data|e0]; simpl; [|congruence].
  destruct (getitem data "token") as [tok|e0]; simpl; [|congruence].
  destruct (getitem data "url") as [url|e0]; simpl; [|congruence].
  destruct (bind_text tok) as [tk|e0]; simpl; [|congruence].
  destruct (db_create_order _ _ _ _ _ t) as [t'|e0]; simpl; [discriminate|congruence].
Qed.

(** C10: for every checkout request whose [email] field can be read,
    when the gateway call of this checkout fails (a credential missing,
    or the gateway out of reach, answering with a status other than
    200, or with a body that is not JSON, to the request of this
    checkout), [pay_create] raises, the table is left as it was and no
    task is scheduled: no order exists for a checkout whose gateway
    session was not obtained.  When the address is valid and the public
    base URL is set, what [pay_create] raises is what the gateway call
    raises. *)
Theorem pay_create_failed_gateway_call_writes_nothing :
  forall hmac lower repr cfg gw (u1 u2 : N) (now : string)
         (payload : list (string * json)) (t : table) (s : string),
    email_field payload = Ok s ->
    gateway_call_fails hmac cfg gw (uuid_str u1) (uuid_str u2)
                       (lower (strip s)) ->
    exists e,
      serve (pay_create hmac lower repr cfg gw u1 u2 now payload) t
      = (Raise e, t, [])
      /\ (is_valid_email (lower (strip s)) = true ->
          nonempty (PUBLIC_BASE_URL cfg) = true ->
          flow_post hmac cfg gw "/payment/create"
                    (pay_create_params cfg (uuid_str u1) (uuid_str u2)
                                       (lower (strip s)))
          = Raise e).
Proof.
  intros hmac lower repr cfg gw u1 u2 now payload t s Hs Hfail.
  destruct (flow_post_fails hmac cfg gw _ _ _ Hfail) as [e He].
  unfold pay_create. run_handler. rewrite Hs. simpl.
  destruct (is_valid_email _); simpl;
    [|eexists; split; [reflexivity | discriminate]].
  destruct (nonempty (PUBLIC_BASE_URL cfg)); simpl;
    [|eexists; split; [reflexivity | discriminate]].
  rewrite He. simpl. exists e. auto.
Qed.

(** A gateway that refuses every POST and answers every GET. *)
Definition refuses_posts : gateway :=
  fun rq =>
    match method rq with
    | POST => Reply 503 "Service Unavailable" None
    | GET => Reply 200 "status" (Some (JDict [("status", JInt 2)]))
    end.

Lemma pay_create_failed_gateway_call_writes_nothing_witness :
  exists e,
    serve (pay_create tag lower_ascii no_repr shop refuses_posts 1 2 "t0"
                      [("email", JStr " Cliente@Correo.cl ")])
          created_table
    = (Raise e, created_table, [])
    /\ (is_valid_email (lower_ascii (strip " Cliente@Correo.cl ")) = true ->
        nonempty (PUBLIC_BASE_URL shop) = true ->
        flow_post tag shop refuses_posts "/payment/create"
                  (pay_create_params shop (uuid_str 1) (uuid_str 2)
                                     (lower_ascii (strip " Cliente@Correo.cl ")))
        = Raise e).
Proof.
  apply (pay_create_failed_gateway_call_writes_nothing
           tag lower_ascii no_repr shop refuses_posts 1 2 "t0"
           [("email", JStr " Cliente@Correo.cl ")] created_table
           " Cliente@Correo.cl ").
  - reflexivity.
  - right. right. simpl. left. discriminate.
Defined.

Lemma pay_create_raise_writes_nothing_witness :
  serve (pay_create tag lower_ascii no_repr shop (says_status 2) 1 2 "t0"
                    [("email", JStr "a@x.cl")]) created_table
  = (Raise (PyError "KeyError"), created_table, []).
Proof.
  apply (pay_create_raise_writes_nothing
           tag lower_ascii no_repr shop (says_status 2) 1 2 "t0"
           [("email", JStr "a@x.cl")] created_table (PyError "KeyError")).
  reflexivity.
Defined.

(** A checkout that goes through: with a well-formed address, the
    public base URL and the credentials set, an order id that is new,
    and a gateway that answers the request of this checkout with 200
    and a JSON object holding a text [token] and a text [url] (in any
    order, among any other keys), the table gains exactly one row,
    last: the order with the normalised address, status 1 (created), no
    download token and no payment date; the answer carries the checkout
    URL and the token. *)
Lemma pay_create_persists_created_order
      hmac lower repr cfg gw u1 u2 now payload t s text d url tok :
  email_field payload = Ok s ->
  is_valid_email (lower (strip s)) = true ->
  nonempty (PUBLIC_BASE_URL cfg) = true ->
  nonempty (FLOW_API_KEY cfg) = true ->
  nonempty (FLOW_SECRET_KEY cfg) = true ->
  gw (checkout_request hmac cfg (uuid_str u1) (uuid_str u2) (lower (strip s)))
  = Reply 200 text (Some (JDict d)) ->
  assoc "token" d = Some (JStr tok) ->
  assoc "url" d = Some (JStr url) ->
  ~ In (uuid_str u2) (map id t) ->
  serve (pay_create hmac lower repr cfg gw u1 u2 now payload) t
  = (Ok (JSONResponse
           (JDict [("ok", JBool true);
                   ("checkoutUrl", JStr (url ++ "?token=" ++ tok)%string);
                   ("token", JStr tok)]) 200),
     t ++ [mk_order (uuid_str u2) now (lower (strip s)) (uuid_str u1) tok
                    1 None None],
     []).
Proof.
  intros He Hv Hb Hk Hsec Hgw Htok Hurl Hnew. unfold pay_create. run_handler.
  rewrite He. simpl. rewrite Hv, Hb. simpl.
  rewrite flow_post_asks, Hk, Hsec, Hgw. simpl.
  rewrite Htok. simpl. rewrite Hurl. simpl.
  rewrite (DbFacts.db_create_order_fresh
             (uuid_str u2) (lower (strip s)) (uuid_str u1) tok now t Hnew).
  reflexivity.
Qed.

Lemma pay_create_persists_created_order_witness :
  serve (pay_create tag lower_ascii no_repr shop
           (answers 200 "json"
              (Some (JDict [("url", JStr "https://flow.example/pay");
                            ("flowOrder", JInt 7);
                            ("token", JStr "tok2")])))
           1 2 "t0" [("email", JStr " Cliente@Correo.cl ")])
        created_table
  = (Ok (JSONResponse
           (JDict [("ok", JBool true);
                   ("checkoutUrl", JStr "https://flow.example/pay?token=tok2");
                   ("token", JStr "tok2")]) 200),
     created_table
     ++ [mk_order "00000000-0000-0000-0000-000000000002" "t0" "cliente@correo.cl"
                  "00000000-0000-0000-0000-000000000001" "tok2" 1 None None],
     []).
Proof.
  apply (pay_create_persists_created_order
           tag lower_ascii no_repr shop
           (answers 200 "json"
              (Some (JDict [("url", JStr "https://flow.example/pay");
                            ("flowOrder", JInt 7);
                            ("token", JStr "tok2")])))
           1 2 "t0" [("email", JStr " Cliente@Correo.cl ")] created_table
           " Cliente@Correo.cl " "json"
           [("url", JStr "https://flow.example/pay");
            ("flowOrder", JInt 7);
            ("token", JStr "tok2")]
           "https://flow.example/pay" "tok2");
    try reflexivity.
  simpl. intros [E|[]]. discriminate.
Defined.

(** *** A purchase from end to end *)

Definition buyer_table : table :=
  [mk_order "00000000-0000-0000-0000-000000000002" "t0" "buyer@example.com"
            "00000000-0000-0000-0000-000000000001" "tok" 1 None None].

Definition buyer_paid_table : table :=
  [mk_order "00000000-0000-0000-0000-000000000002" "t0" "buyer@example.com"
            "00000000-0000-0000-0000-000000000001" "tok" 2
            (Some "000000000000000000000000000000ff") (Some "t1")].

Definition session_gateway : gateway :=
  answers 200 "json"
          (Some (JDict [("url", JStr "https://flow.example/pay");
                        ("token", JStr "tok")])).

(** The scenario of the specification: a checkout for
    [buyer@example.com], the gateway reporting the payment, the
    callback, the download; then the same callback again, which stores
    no new token. *)
Lemma purchase_end_to_end :
  serve (pay_create tag lower_ascii no_repr shop session_gateway 1 2 "t0"
                    [("email", JStr "buyer@example.com")]) db_init
  = (Ok (JSONResponse
           (JDict [("ok", JBool true);
                   ("checkoutUrl", JStr "https://flow.example/pay?token=tok");
                   ("token", JStr "tok")]) 200),
     buyer_table, [])
  /\ serve (flow_confirmation tag shop (says_status 2) 255 "t1" (Some "tok"))
           buyer_table
     = (Ok (JSONResponse ok_body 200), buyer_paid_table,
        [link_mail shop "buyer@example.com" "000000000000000000000000000000ff"])
  /\ String.length "000000000000000000000000000000ff" = 32%nat
  /\ serve (download shop (fun _ => true) "000000000000000000000000000000ff")
           buyer_paid_table
     = (Ok (FileResponse "products/pack_ia_pymes_2026.zip" "application/zip"
                         "pack_ia_pymes_2026.zip"), buyer_paid_table, [])
  /\ snd (fst (serve (flow_confirmation tag shop (says_status 2) 256 "t2"
                                        (Some "tok")) buyer_paid_table))
     = buyer_paid_table
  /\ http_status
       (fst (fst (serve (download shop (fun _ => true)
                                  "000000000000000000000000000000ff")
                        buyer_table)))
     = 404.
Proof.
  repeat (split; [vm_compute; reflexivity|]). vm_compute. reflexivity.
Qed.

End AppFacts.

(* ================================================================== *)
(** ** The order table: how the statements compose *)
(* ================================================================== *)

Module StoreFacts.
Import Py Db DbFacts.
Local Open Scope list_scope.

Lemma db_mark_paid_as_map tok dl now t :
  db_mark_paid tok dl now t = map (mark tok dl now) t.
Proof. reflexivity. Qed.

(** A row that [db_mark_paid] has gone over is out of reach of a second
    [db_mark_paid] for the same token, whatever the row was. *)
Lemma mark_mark tok dl1 now1 dl2 now2 r :
  mark tok dl2 now2 (mark tok dl1 now1 r) = mark tok dl1 now1 r.
Proof.
  unfold mark at 2 3. destruct (mark_paid_where tok r) eqn:E.
  - unfold mark, mark_paid_where, has_flow_token in *. simpl.
    apply andb_true_iff in E. destruct E as [E _]. rewrite E. reflexivity.
  - unfold mark. now rewrite E.
Qed.

(** [db_mark_paid] is idempotent on every table, consistent or not: a
    second call for the same gateway token, with any candidate token
    and date, changes nothing. *)
Theorem db_mark_paid_twice :
  forall (tok dl1 now1 dl2 now2 : string) (t : table),
    db_mark_paid tok dl2 now2 (db_mark_paid tok dl1 now1 t)
    = db_mark_paid tok dl1 now1 t.
Proof.
  intros. rewrite !db_mark_paid_as_map, map_map.
  apply map_ext. intros r. apply mark_mark.
Qed.

Lemma mark_other_token tok dl now r :
  flow_token r <> tok -> mark tok dl now r = r.
Proof.
  intros N. unfold mark, mark_paid_where, has_flow_token.
  apply String.eqb_neq in N. now rewrite N.
Qed.

Lemma has_flow_token_iff tok r :
  has_flow_token tok r = true <-> flow_token r = tok.
Proof. unfold has_flow_token. apply String.eqb_eq. Qed.

Lemma find_flow_token_mark tok' tok dl now t :
  find (has_flow_token tok') (map (mark tok dl now) t)
  = option_map (mark tok dl now) (find (has_flow_token tok') t).
Proof.
  induction t as [|x t IH]; simpl; auto.
  replace (has_flow_token tok' (mark tok dl now x)) with (has_flow_token tok' x)
    by (unfold mark; now destruct (mark_paid_where tok x)).
  destruct (has_flow_token tok' x); auto.
Qed.

(** [db_mark_paid] reaches only the orders of its gateway token: with
    no order under the token the table is left as it is, and what
    [db_get_by_flow_token] returns for another token is not affected;
    the ids and their order never change. *)
Theorem db_mark_paid_reaches_its_token_only :
  forall (tok dl now : string) (t : table),
    ((forall r, In r t -> flow_token r <> tok) -> db_mark_paid tok dl now t = t)
    /\ (forall tok', tok' <> tok ->
                     db_get_by_flow_token tok' (db_mark_paid tok dl now t)
                     = db_get_by_flow_token tok' t)
    /\ map id (db_mark_paid tok dl now t) = map id t.
Proof.
  intros tok dl now t. rewrite db_mark_paid_as_map. split; [|split].
  - intros H. rewrite <- (map_id t) at 2. apply map_ext_in.
    intros r Hr. apply mark_other_token. auto.
  - intros tok' N. unfold db_get_by_flow_token.
    rewrite find_flow_token_mark.
    destruct (find (has_flow_token tok') t) as [r|] eqn:F; [|reflexivity].
    apply find_some in F. destruct F as [_ F]. apply has_flow_token_iff in F.
    simpl. rewrite mark_other_token; [reflexivity|congruence].
  - rewrite map_map. apply map_ext. intros r. apply mark_id.
Qed.

Lemma db_mark_paid_reaches_its_token_only_witness :
  db_mark_paid "unknown" "d" "t1"
    [mk_order "o1" "t0" "a@x.cl" "c1" "tok" 1 None None]
  = [mk_order "o1" "t0" "a@x.cl" "c1" "tok" 1 None None].
Proof.
  apply (proj1 (db_mark_paid_reaches_its_token_only "unknown" "d" "t1"
                  [mk_order "o1" "t0" "a@x.cl" "c1" "tok" 1 None None])).
  intros r [<-|[]]. simpl. discriminate.
Defined.

Lemma find_app_some {A} (p : A -> bool) (l l' : list A) x :
  find p l = Some x -> find p (l ++ l') = Some x.
Proof.
  induction l as [|y l IH]; simpl; [discriminate|]. destruct (p y); auto.
Qed.

Lemma find_app_none {A} (p : A -> bool) (l l' : list A) :
  find p l = None -> find p (l ++ l') = find p l'.
Proof.
  induction l as [|y l IH]; simpl; auto. destruct (p y); [discriminate|auto].
Qed.

(** Insert, then look up: after a [db_create_order] that goes through,
    [db_get_by_flow_token] returns what it returned before for every
    token that already had an order (an earlier order shadows the new
    one, even under the new order's own token); under its token the new
    order is found, created and without download token, when the token
    was free; and no download token leads to the new order. *)
Theorem db_create_order_then_lookup :
  forall (i e c f now : string) (t : table),
    ~ In i (map id t) ->
    exists t',
      db_create_order i e c f now t = Ok t'
      /\ (forall tok x, db_get_by_flow_token tok t = Some x ->
                        db_get_by_flow_token tok t' = Some x)
      /\ (db_get_by_flow_token f t = None ->
          db_get_by_flow_token f t' = Some (i, e, 1, None))
      /\ (forall tok, tok <> f -> db_get_by_flow_token tok t = None ->
                      db_get_by_flow_token tok t' = None)
      /\ (forall dl, db_get_by_download_token dl t'
                     = db_get_by_download_token dl t).
Proof.
  intros i e c f now t Hnew.
  exists (t ++ [mk_order i now e c f 1 None None]).
  split; [now apply db_create_order_fresh|].
  unfold db_get_by_flow_token, db_get_by_download_token.
  split; [|split; [|split]].
  - intros tok x H.
    destruct (find (has_flow_token tok) t) as [r|] eqn:F; [|discriminate].
    now rewrite (find_app_some _ _ _ _ F).
  - intros H.
    destruct (find (has_flow_token f) t) as [r|] eqn:F; [discriminate|].
    rewrite (find_app_none _ _ _ F). simpl. unfold has_flow_token. simpl.
    now rewrite String.eqb_refl.
  - intros tok N H.
    destruct (find (has_flow_token tok) t) as [r|] eqn:F; [discriminate|].
    rewrite (find_app_none _ _ _ F). simpl. unfold has_flow_token. simpl.
    apply not_eq_sym in N. apply String.eqb_neq in N. now rewrite N.
  - intros dl.
    destruct (find (has_download_token dl) t) as [r|] eqn:F.
    + now rewrite (find_app_some _ _ _ _ F).
    + now rewrite (find_app_none _ _ _ F).
Qed.

Lemma db_create_order_then_lookup_witness :
  exists t',
    db_create_order "o2" "b@x.cl" "c2" "tok2" "t1"
      [mk_order "o1" "t0" "a@x.cl" "c1" "tok" 1 None None] = Ok t'
    /\ db_get_by_flow_token "tok2" t' = Some ("o2", "b@x.cl", 1, None)
    /\ db_get_by_flow_token "tok" t' = Some ("o1", "a@x.cl", 1, None).
Proof.
  destruct (db_create_order_then_lookup "o2" "b@x.cl" "c2" "tok2" "t1"
              [mk_order "o1" "t0" "a@x.cl" "c1" "tok" 1 None None])
    as [t' [H1 [H2 [H3 _]]]].
  - simpl. intros [E|[]]. discriminate.
  - exists t'. split; [exact H1|]. split.
    + apply H3. reflexivity.
    + apply H2. reflexivity.
Defined.

Lemma has_download_token_true dl r :
  has_download_token dl r = true <-> download_token r = Some dl.
Proof.
  unfold has_download_token. destruct (download_token r) as [d|].
  - rewrite String.eqb_eq. split; congruence.
  - split; discriminate.
Qed.

(** Where the first order of a gateway token sits: nothing before it has
    the token. *)
Lemma find_split {A} (p : A -> bool) (l : list A) x :
  find p l = Some x ->
  exists before after,
    l = before ++ x :: after /\ p x = true
    /\ forall y, In y before -> p y = false.
Proof.
  induction l as [|y l IH]; simpl; [discriminate|].
  destruct (p y) eqn:E.
  - intros [= ->]. exists [], l. repeat split; auto. intros z [].
  - intros F. destruct (IH F) as [before [after [-> [Hx Hb]]]].
    exists (y :: before), after. repeat split; auto.
    intros z [<-|Hz]; auto.
Qed.

(** Mark, then look up by download token: when the order that
    [db_get_by_flow_token] finds has no download token, and the
    candidate token is not in use, [db_get_by_download_token] finds that
    very order under the candidate after [db_mark_paid], paid. *)
Theorem db_mark_paid_then_download_lookup :
  forall (tok dl now : string) (t : table) (oid e : string) (st : Z),
    db_get_by_flow_token tok t = Some (oid, e, st, None) ->
    (forall r, In r t -> download_token r <> Some dl) ->
    db_get_by_download_token dl (db_mark_paid tok dl now t) = Some (e, 2, tok).
Proof.
  intros tok dl now t oid e st Hget Hfree.
  unfold db_get_by_flow_token in Hget.
  destruct (find (has_flow_token tok) t) as [r|] eqn:F; [|discriminate].
  simpl in Hget. injection Hget as <- <- <- D.
  destruct (find_split _ _ _ F) as [before [after [-> [Hr Hb]]]].
  rewrite db_mark_paid_as_map, map_app. simpl map.
  unfold db_get_by_download_token.
  rewrite find_app_none.
  - simpl. unfold mark, mark_paid_where. rewrite Hr, D. simpl.
    rewrite orb_true_r. simpl. unfold has_download_token. simpl.
    rewrite String.eqb_refl. simpl.
    apply has_flow_token_iff in Hr. now rewrite Hr.
  - destruct (find (has_download_token dl) (map (mark tok dl now) before))
      as [x|] eqn:G; [|reflexivity].
    exfalso. apply find_some in G. destruct G as [Hin Hx].
    apply in_map_iff in Hin. destruct Hin as [y [<- Hy]].
    rewrite mark_other_token in Hx.
    + apply has_download_token_true in Hx.
      apply (Hfree y); [apply in_or_app; now left | exact Hx].
    + intros E. apply has_flow_token_iff in E.
      rewrite (Hb y Hy) in E. discriminate.
Qed.

Lemma db_mark_paid_then_download_lookup_witness :
  db_get_by_download_token "d1"
    (db_mark_paid "tok" "d1" "t1"
       [mk_order "o0" "t0" "z@x.cl" "c0" "other" 1 None None;
        mk_order "o1" "t0" "a@x.cl" "c1" "tok" 1 None None])
  = Some ("a@x.cl", 2, "tok").
Proof.
  apply (db_mark_paid_then_download_lookup "tok" "d1" "t1"
           [mk_order "o0" "t0" "z@x.cl" "c0" "other" 1 None None;
            mk_order "o1" "t0" "a@x.cl" "c1" "tok" 1 None None]
           "o1" "a@x.cl" 1).
  - reflexivity.
  - intros r [<-|[<-|[]]]; simpl; discriminate.
Defined.

(** In a table grown from the empty one by the two writing statements,
    whatever a download token leads to is a paid order, and whatever a
    gateway token leads to is either created without download token or
    paid with one: the store never shows a download token on an unpaid
    order. *)
Theorem lookups_show_consistent_orders :
  forall (ops : list op),
    (forall dl e st f,
        db_get_by_download_token dl (run ops db_init) = Some (e, st, f) ->
        st = 2)
    /\ (forall tok oid e st d,
          db_get_by_flow_token tok (run ops db_init) = Some (oid, e, st, d) ->
          (st = 1 /\ d = None) \/ (st = 2 /\ d <> None)).
Proof.
  intros ops.
  assert (Hok : Forall row_ok (run ops db_init))
    by (apply run_rows_ok; constructor).
  split.
  - intros dl e st f H. unfold db_get_by_download_token in H.
    destruct (find _ _) as [r|] eqn:F; [|discriminate].
    simpl in H. injection H as _ <- _.
    apply find_some in F. destruct F as [Hin Hd].
    apply has_download_token_true in Hd.
    destruct (proj1 (Forall_forall _ _) Hok r Hin) as [[_ N]|[P _]];
      [congruence | exact P].
  - intros tok oid e st d H. unfold db_get_by_flow_token in H.
    destruct (find _ _) as [r|] eqn:F; [|discriminate].
    simpl in H. injection H as _ _ <- <-.
    apply find_some in F. destruct F as [Hin _].
    exact (proj1 (Forall_forall _ _) Hok r Hin).
Qed.

End StoreFacts.

(* ================================================================== *)
(** ** The address check *)
(* ================================================================== *)

Module EmailFacts.
Import Py Utils App.

Lemma append_assoc (a b c : string) : (a ++ b) ++ c = a ++ (b ++ c).
Proof. induction a as [|x a IH]; simpl; [reflexivity | now rewrite IH]. Qed.

Lemma append_empty_r (a : string) : a ++ "" = a.
Proof. induction a as [|x a IH]; simpl; [reflexivity | now rewrite IH]. Qed.

(** A dot after a non-empty text does not turn its start into a
    whitespace character. *)
Lemma ws_len_app_dot x y : x <> "" -> ws_len (x ++ String "." y) = ws_len x.
Proof.
  intros N. destruct x as [|a [|a1 [|a2 x']]]; [congruence| | |reflexivity].
  - cbn -[N.leb N.eqb]. destruct (_ || _)%bool; [reflexivity|].
    cbn. rewrite ?andb_false_r. destruct y; reflexivity.
  - cbn -[N.leb N.eqb]. destruct (_ || _)%bool; [reflexivity|].
    destruct (_ && _)%bool; [reflexivity|].
    cbn. rewrite ?andb_false_r. reflexivity.
Qed.

Lemma ws_len_dot y : ws_len (String "." y) = 0%nat.
Proof. destruct y as [|b [|c y]]; reflexivity. Qed.

Lemma no_at_ws_app_dot c d :
  no_at_ws (c ++ String "." d) = no_at_ws c && no_at_ws d.
Proof.
  induction c as [|a c IH].
  - cbn [append no_at_ws]. rewrite ws_len_dot. reflexivity.
  - change (String a c ++ String "." d) with (String a (c ++ String "." d)).
    cbn [no_at_ws]. rewrite IH.
    change (String a (c ++ String "." d)) with (String a c ++ String "." d).
    rewrite ws_len_app_dot by discriminate.
    now rewrite andb_assoc.
Qed.

Lemma no_at_ws_split_at l : no_at_ws l = true -> split_at l = None.
Proof.
  induction l as [|a l IH]; [reflexivity|].
  cbn [no_at_ws split_at]. intros H.
  apply andb_true_iff in H. destruct H as [H Hl].
  apply andb_true_iff in H. destruct H as [Ha _].
  apply negb_true_iff in Ha. rewrite Ha. now rewrite (IH Hl).
Qed.

Lemma split_at_app l r :
  split_at l = None -> split_at (l ++ String "@" r) = Some (l, r).
Proof.
  induction l as [|a l IH]; cbn [append split_at].
  - reflexivity.
  - destruct (a =? "@")%char; [discriminate|].
    destruct (split_at l) as [[x y]|]; [discriminate|].
    intros _. now rewrite IH.
Qed.

Lemma split_at_inv s l r :
  split_at s = Some (l, r) -> s = l ++ String "@" r.
Proof.
  revert l. induction s as [|a s IH]; cbn [split_at]; [discriminate|].
  intros l. destruct (a =? "@")%char eqn:E.
  - apply Ascii.eqb_eq in E. subst. now intros [= <- <-].
  - destruct (split_at s) as [[x y]|]; [|discriminate].
    intros [= <- <-]. cbn [append]. now rewrite (IH x eq_refl).
Qed.

Lemma dot_not_last_inv r :
  dot_not_last r = true ->
  exists c d, d <> "" /\ r = c ++ String "." d.
Proof.
  induction r as [|a r IH]; [discriminate|].
  destruct r as [|b r]; [discriminate|].
  cbn [dot_not_last]. intros H. apply orb_true_iff in H.
  destruct H as [H|H].
  - apply Ascii.eqb_eq in H. subst. exists "", (String b r).
    split; [discriminate | reflexivity].
  - destruct (IH H) as [c [d [Hd E]]]. exists (String a c), d.
    split; [exact Hd|]. cbn [append]. now rewrite E.
Qed.

Lemma dot_not_last_app c d :
  d <> "" -> dot_not_last (c ++ String "." d) = true.
Proof.
  intros Hd. induction c as [|a c IH]; cbn [append].
  - destruct d; [congruence|]. cbn [dot_not_last]. reflexivity.
  - destruct (c ++ String "." d) eqn:E.
    + destruct c; discriminate.
    + change (dot_not_last (String a (String a0 s)))
        with ((a =? ".")%char || dot_not_last (String a0 s)).
      rewrite IH. apply orb_true_r.
Qed.

Lemma dot_inside_iff r :
  dot_inside r = true
  <-> exists c d, c <> "" /\ d <> "" /\ r = c ++ String "." d.
Proof.
  split.
  - destruct r as [|a r]; [discriminate|]. cbn [dot_inside]. intros H.
    destruct (dot_not_last_inv r H) as [c [d [Hd ->]]].
    exists (String a c), d. repeat split; auto. discriminate.
  - intros [c [d [Hc [Hd ->]]]]. destruct c as [|a c]; [congruence|].
    cbn [append dot_inside]. now apply dot_not_last_app.
Qed.

Lemma nonempty_iff s : nonempty s = true <-> s <> "".
Proof. destruct s; simpl; split; congruence. Qed.

(** The pattern between [^] and [$]. *)
Lemma email_shape_iff s :
  email_shape s = true
  <-> exists l c d,
      s = l ++ "@" ++ c ++ "." ++ d
      /\ l <> "" /\ c <> "" /\ d <> ""
      /\ no_at_ws l = true /\ no_at_ws c = true /\ no_at_ws d = true.
Proof.
  unfold email_shape. split.
  - destruct (split_at s) as [[l r]|] eqn:S; [|discriminate].
    apply split_at_inv in S. intros H.
    repeat (apply andb_true_iff in H; destruct H as [H ?]).
    apply dot_inside_iff in H0. destruct H0 as [c [d [Hc [Hd ->]]]].
    rewrite no_at_ws_app_dot in H1. apply andb_true_iff in H1.
    destruct H1 as [Nc Nd].
    exists l, c, d. repeat split; auto. now apply nonempty_iff.
  - intros [l [c [d [-> [Hl [Hc [Hd [Nl [Nc Nd]]]]]]]]].
    cbn [append]. rewrite (split_at_app l _ (no_at_ws_split_at l Nl)).
    rewrite (proj2 (nonempty_iff l) Hl), Nl. cbn [andb].
    rewrite no_at_ws_app_dot, Nc, Nd. cbn [andb].
    apply dot_inside_iff. exists c, d. auto.
Qed.

Lemma chop_newline_iff s s0 :
  chop_newline s = Some s0 <-> s = s0 ++ nl.
Proof.
  revert s0. induction s as [|a s IH]; intros s0.
  - split; [discriminate|]. destruct s0; discriminate.
  - destruct s as [|b s].
    + cbn [chop_newline]. split.
      * destruct (N_of_ascii a =? 10)%N eqn:E; [|discriminate].
        intros [= <-]. apply N.eqb_eq in E.
        rewrite <- (ascii_N_embedding a), E. reflexivity.
      * destruct s0 as [|x s0]; cbn.
        -- intros [= ->]. reflexivity.
        -- intros H. injection H as _ H. destruct s0; discriminate.
    + change (chop_newline (String a (String b s)))
        with (option_map (String a) (chop_newline (String b s))).
      split.
      * destruct (chop_newline (String b s)) as [x|] eqn:C; [|discriminate].
        intros [= <-]. pose proof (proj1 (IH x) eq_refl) as C'.
        cbn [append]. now rewrite C'.
      * destruct s0 as [|x s0].
        -- cbn. intros H. injection H as _ H. discriminate.
        -- cbn [append]. intros [= -> H]. apply IH in H. now rewrite H.
Qed.

(** [is_valid_email] accepts exactly the texts [local@c.d], optionally
    followed by one line feed, in which [local], [c] and [d] are not
    empty and hold neither [@] nor whitespace ([c] and [d] may hold
    further dots). *)
Theorem is_valid_email_iff_shape :
  forall s : string,
    is_valid_email s = true
    <-> exists l c d,
        (s = l ++ "@" ++ c ++ "." ++ d \/ s = (l ++ "@" ++ c ++ "." ++ d) ++ nl)
        /\ l <> "" /\ c <> "" /\ d <> ""
        /\ no_at_ws l = true /\ no_at_ws c = true /\ no_at_ws d = true.
Proof.
  intros s. unfold is_valid_email, EMAIL_REGEX_match. split.
  - intros H. apply andb_true_iff in H. destruct H as [_ H].
    apply orb_true_iff in H. destruct H as [H|H].
    + apply email_shape_iff in H. destruct H as [l [c [d [E H]]]].
      exists l, c, d. split; [now left | exact H].
    + destruct (chop_newline s) as [s0|] eqn:C; [|discriminate].
      apply chop_newline_iff in C. apply email_shape_iff in H.
      destruct H as [l [c [d [E H]]]]. exists l, c, d.
      split; [right; now rewrite <- E | exact H].
  - intros [l [c [d [[E|E] H]]]].
    + assert (S : email_shape s = true)
        by (apply email_shape_iff; exists l, c, d; auto).
      rewrite S. destruct l; [tauto|]. now rewrite E.
    + assert (S : email_shape (l ++ "@" ++ c ++ "." ++ d) = true)
        by (apply email_shape_iff; exists l, c, d; auto).
      rewrite (proj2 (chop_newline_iff s _) E), S, orb_true_r.
      destruct l; [tauto|]. now rewrite E.
Qed.

End EmailFacts.

(* ================================================================== *)
(** ** The requests sent to the gateway *)
(* ================================================================== *)

Module RequestFacts.
Import Py Signer Gateway.
Local Open Scope string_scope.

Lemma assoc_setitem_same (d : pydict) k v :
  assoc k (setitem d k v) = Some v.
Proof.
  induction d as [|[k' v'] d IH]; simpl.
  - now rewrite String.eqb_refl.
  - destruct (k' =? k) eqn:E; simpl.
    + now rewrite String.eqb_refl.
    + now rewrite E.
Qed.

Lemma assoc_setitem_other (d : pydict) k k' v :
  k' <> k -> assoc k' (setitem d k v) = assoc k' d.
Proof.
  intros N. induction d as [|[k0 v0] d IH]; simpl.
  - apply not_eq_sym in N. apply String.eqb_neq in N. now rewrite N.
  - destruct (k0 =? k) eqn:E; simpl.
    + apply String.eqb_eq in E. subst k0.
      apply not_eq_sym in N. apply String.eqb_neq in N. now rewrite N.
    + destruct (k0 =? k'); auto.
Qed.

Lemma keys_setitem (d : pydict) k v k' :
  In k' (map fst (setitem d k v)) <-> k' = k \/ In k' (map fst d).
Proof.
  induction d as [|[k0 v0] d IH]; simpl.
  - intuition.
  - destruct (k0 =? k) eqn:E; simpl.
    + apply String.eqb_eq in E. subst k0. intuition.
    + rewrite IH. intuition.
Qed.

(** Adding the signature to parameters that have none and taking it
    away again gives the parameters back. *)
Lemma without_signature_setitem (d : pydict) v :
  ~ In "s" (map fst d) -> without_signature (setitem d "s" v) = d.
Proof.
  unfold without_signature. induction d as [|[k0 v0] d IH]; simpl.
  - reflexivity.
  - intros N. destruct (k0 =? "s") eqn:E.
    + apply String.eqb_eq in E. subst k0. exfalso. apply N. now left.
    + simpl. rewrite E. simpl. f_equal. apply IH. intros H. apply N. now right.
Qed.

(** Both gateway calls put one question to the gateway, and the
    question is signed: the field [s] of the request is [flow_sign],
    under the secret, of all its other fields.  For [flow_post] this
    needs parameters without a field [s] of their own; the request then
    is a POST to the endpoint that carries the API key and every other
    parameter as given.  The outcome of either call depends on the
    gateway through the answer to that one request only. *)
Theorem gateway_requests_are_signed :
  forall hmac cfg,
    (forall endpoint (params : pydict),
        ~ In "s" (map fst params) ->
        exists rq,
          method rq = POST
          /\ url rq = FLOW_API_URL cfg ++ endpoint
          /\ assoc "apiKey" (fields rq) = Some (VStr (FLOW_API_KEY cfg))
          /\ (forall k, k <> "apiKey" -> k <> "s" ->
                        assoc k (fields rq) = assoc k params)
          /\ assoc "s" (fields rq)
             = Some (VStr (flow_sign hmac (without_signature (fields rq))
                                     (FLOW_SECRET_KEY cfg)))
          /\ (forall gw gw', gw rq = gw' rq ->
                             flow_post hmac cfg gw endpoint params
                             = flow_post hmac cfg gw' endpoint params))
    /\ (forall token,
          exists rq,
            method rq = GET
            /\ url rq = FLOW_API_URL cfg ++ "/payment/getStatus"
            /\ assoc "apiKey" (fields rq) = Some (VStr (FLOW_API_KEY cfg))
            /\ assoc "token" (fields rq) = Some (VStr token)
            /\ assoc "s" (fields rq)
               = Some (VStr (flow_sign hmac (without_signature (fields rq))
                                       (FLOW_SECRET_KEY cfg)))
            /\ (forall gw gw', gw rq = gw' rq ->
                               flow_get_status hmac cfg gw token
                               = flow_get_status hmac cfg gw' token)).
Proof.
  intros hmac cfg. split.
  - intros endpoint params Hs.
    set (p1 := setitem params "apiKey" (VStr (FLOW_API_KEY cfg))).
    assert (Hs1 : ~ In "s" (map fst p1)).
    { unfold p1. rewrite keys_setitem. intros [E|H]; [discriminate|auto]. }
    exists (mk_request POST (FLOW_API_URL cfg ++ endpoint)
              (setitem p1 "s"
                 (VStr (flow_sign hmac p1 (FLOW_SECRET_KEY cfg))))).
    simpl. repeat split.
    + rewrite assoc_setitem_other by discriminate.
      apply assoc_setitem_same.
    + intros k N1 N2. unfold p1.
      now rewrite !assoc_setitem_other by auto.
    + rewrite without_signature_setitem by assumption.
      apply assoc_setitem_same.
    + intros gw gw' E. unfold flow_post. fold p1.
      destruct (_ || _); [reflexivity|]. now rewrite E.
  - intros token.
    exists (mk_request GET (FLOW_API_URL cfg ++ "/payment/getStatus")
              (setitem [("apiKey", VStr (FLOW_API_KEY cfg)); ("token", VStr token)]
                 "s"
                 (VStr (flow_sign hmac
                          [("apiKey", VStr (FLOW_API_KEY cfg));
                           ("token", VStr token)]
                          (FLOW_SECRET_KEY cfg))))).
    repeat split.
    intros gw gw' E. unfold flow_get_status. now rewrite E.
Qed.

Lemma gateway_requests_are_signed_witness :
  exists rq,
    method rq = POST
    /\ url rq = "https://sandbox.flow.cl/api/payment/create"
    /\ assoc "apiKey" (fields rq) = Some (VStr "key")
    /\ (forall k, k <> "apiKey" -> k <> "s" ->
                  assoc k (fields rq) = assoc k [("amount", VInt 350)])
    /\ assoc "s" (fields rq)
       = Some (VStr (flow_sign GatewayFacts.tag (without_signature (fields rq))
                               "secret"))
    /\ (forall gw gw', gw rq = gw' rq ->
                       flow_post GatewayFacts.tag GatewayFacts.shop gw
                                 "/payment/create" [("amount", VInt 350)]
                       = flow_post GatewayFacts.tag GatewayFacts.shop gw'
                                   "/payment/create" [("amount", VInt 350)]).
Proof.
  apply (proj1 (gateway_requests_are_signed GatewayFacts.tag GatewayFacts.shop)
               "/payment/create" [("amount", VInt 350)]).
  simpl. intros [E|[]]. discriminate.
Defined.

Lemma compare_lt_app (a k p : string) :
  String.compare a k = Lt -> String.compare a (k ++ p) = Lt.
Proof.
  revert k. induction a as [|x a IH]; intros [|y k]; simpl; try discriminate.
  - reflexivity.
  - destruct (Ascii.compare x y); auto.
Qed.

Lemma insert_below_last (y x : string * pyval) (l : pydict) :
  String.leb (fst y) (fst x) = true ->
  insert y (l ++ [x])%list = (insert y l ++ [x])%list.
Proof.
  intros H. induction l as [|z l IH]; simpl.
  - now rewrite H.
  - destruct (String.leb (fst y) (fst z)); [reflexivity|]. now rewrite IH.
Qed.

(** An entry whose key is above all the others is signed last. *)
Lemma sorted_greatest_last (rest : pydict) (x : string * pyval) :
  Forall (fun y => String.compare (fst y) (fst x) = Lt) rest ->
  sorted (rest ++ [x])%list = (sorted rest ++ [x])%list.
Proof.
  induction 1 as [|y rest Hy Hrest IH]; simpl; [reflexivity|].
  rewrite IH. apply insert_below_last. now apply KeyOrder.lt_leb.
Qed.

Lemma to_sign_app (a b : pydict) :
  to_sign (a ++ b)%list = to_sign a ++ to_sign b.
Proof.
  unfold to_sign. induction a as [|x a IH]; simpl; [reflexivity|].
  destruct a as [|y a].
  - simpl in *. destruct b as [|z b]; simpl.
    + now rewrite EmailFacts.append_empty_r.
    + reflexivity.
  - simpl in *. rewrite IH. now rewrite !EmailFacts.append_assoc.
Qed.

(** The signed message has no separator between a key and its value:
    with the other parameters the same and their keys below [k], a
    parameter [k ++ p] with value [v] and a parameter [k] with value
    [p ++ v] are signed alike, whatever the secret. *)
Theorem flow_sign_blind_to_key_value_boundary :
  forall hmac (rest : pydict) (k p v secret : string),
    Forall (fun y => String.compare (fst y) k = Lt) rest ->
    flow_sign hmac (rest ++ [((k ++ p)%string, VStr v)])%list secret
    = flow_sign hmac (rest ++ [(k, VStr (p ++ v)%string)])%list secret.
Proof.
  intros hmac rest k p v secret H. unfold flow_sign.
  rewrite !sorted_greatest_last.
  - rewrite !to_sign_app. unfold to_sign at 2 4. simpl.
    now rewrite EmailFacts.append_assoc.
  - exact H.
  - eapply Forall_impl; [|exact H]. intros y Hy. simpl.
    now apply compare_lt_app.
Qed.

Lemma flow_sign_blind_to_key_value_boundary_witness :
  flow_sign GatewayFacts.tag
            [("amount", VInt 350); ("email", VStr "a@x.cl")] "secret"
  = flow_sign GatewayFacts.tag
              [("amount", VInt 350); ("e", VStr "maila@x.cl")] "secret".
Proof.
  apply (flow_sign_blind_to_key_value_boundary
           GatewayFacts.tag [("amount", VInt 350)] "e" "mail" "a@x.cl" "secret").
  repeat constructor.
Defined.

End RequestFacts.

(* ================================================================== *)
(** ** The application as a whole *)
(* ================================================================== *)

Module SystemFacts.
Import Py Signer Db Gateway Utils App DbFacts AppFacts.
Local Open Scope list_scope.

Lemma length_append (a b : string) :
  String.length (a ++ b)%string = (String.length a + String.length b)%nat.
Proof. induction a as [|x a IH]; simpl; [reflexivity | now rewrite IH]. Qed.

Lemma length_hex_fixed (w : nat) (v : N) : String.length (hex_fixed w v) = w.
Proof.
  revert v. induction w as [|w IH]; intros v; cbn [hex_fixed]; [reflexivity|].
  rewrite length_append, IH. simpl. lia.
Qed.

(** A minted download token has 32 characters. *)
Lemma length_uuid_hex (u : N) : String.length (uuid_hex u) = 32%nat.
Proof. apply length_hex_fixed. Qed.

(** The four endpoints that read or write the order table, each with
    what the outside world contributes to the request. *)
Inductive request : Type :=
| PayCreate (gw : gateway) (u1 u2 : N) (now : string)
            (payload : list (string * json))
| FlowConfirmation (gw : gateway) (u : N) (now : string)
                   (form_token : option string)
| FlowReturn (gw : gateway) (form_token : option string)
| Download (path_exists : string -> bool) (download_token : string).

Section System.

Variable hmac_sha256_hexdigest : string -> string -> string.
Variable str_lower : string -> string.
Variable py_repr : json -> string.
Variable cfg : Config.

(** The routing table of the application. *)
Definition handle (rq : request) : M response :=
  match rq with
  | PayCreate gw u1 u2 now payload =>
    pay_create hmac_sha256_hexdigest str_lower py_repr cfg gw u1 u2 now payload
  | FlowConfirmation gw u now form_token =>
    flow_confirmation hmac_sha256_hexdigest cfg gw u now form_token
  | FlowReturn gw form_token =>
    flow_return hmac_sha256_hexdigest cfg gw form_token
  | Download path_exists dl => download cfg path_exists dl
  end.

Definition table_after (rq : request) (t : table) : table :=
  snd (fst (serve (handle rq) t)).

(** The table after a sequence of requests, served one after the other. *)
Definition serve_all (rqs : list request) (t : table) : table :=
  fold_left (fun t rq => table_after rq t) rqs t.

(** What every row of a table written by the endpoints looks like. *)
Definition row_sound (r : order) : Prop :=
  is_valid_email (email r) = true
  /\ ((status r = 1 /\ download_token r = None /\ paid_at r = None)
      \/ (status r = 2 /\ paid_at r <> None
          /\ exists d, download_token r = Some d /\ String.length d = 32%nat)).

Definition sound (t : table) : Prop :=
  NoDup (map id t) /\ Forall row_sound t.

(** *** What one request does to the table *)

Lemma pay_create_effect gw u1 u2 now payload t r t1 tasks :
  serve (pay_create hmac_sha256_hexdigest str_lower py_repr cfg gw u1 u2 now payload) t
  = (r, t1, tasks) ->
  tasks = []
  /\ ((is_raise r = true /\ t1 = t)
      \/ exists e tok content,
          is_valid_email e = true
          /\ ~ In (uuid_str u2) (map id t)
          /\ t1 = t ++ [mk_order (uuid_str u2) now e (uuid_str u1) tok 1 None None]
          /\ r = Ok (JSONResponse content 200)).
Proof.
  unfold pay_create. run_handler.
  destruct (email_field payload) as [s|e0]; simpl;
    [|intros [= <- <- <-]; auto].
  destruct (is_valid_email _) eqn:V; simpl; [|intros [= <- <- <-]; auto].
  destruct (nonempty (PUBLIC_BASE_URL cfg)); simpl; [|intros [= <- <- <-]; auto].
  destruct (flow_post _ _ _ _ _) as [data|e0]; simpl; [|intros [= <- <- <-]; auto].
  destruct (getitem data "token") as [tok|e0]; simpl; [|intros [= <- <- <-]; auto].
  destruct (getitem data "url") as [url|e0]; simpl; [|intros [= <- <- <-]; auto].
  destruct (bind_text tok) as [tk|e0]; simpl; [|intros [= <- <- <-]; auto].
  unfold db_create_order.
  destruct (existsb (has_id (uuid_str u2)) t) eqn:E; simpl;
    intros [= <- <- <-]; split; auto.
  right. exists (str_lower (strip s)), tk. eexists.
  repeat split; auto.
  intros H. apply existsb_has_id in H. congruence.
Qed.

Lemma flow_confirmation_effect gw u now form_token t r t1 tasks :
  serve (flow_confirmation hmac_sha256_hexdigest cfg gw u now form_token) t
  = (r, t1, tasks) ->
  (t1 = t /\ tasks = [])
  \/ (exists oid e st d,
         db_get_by_flow_token (token_of_form form_token) t
         = Some (oid, e, st, Some d)
         /\ nonempty d = true
         /\ t1 = t /\ tasks = [link_mail cfg e d])
  \/ (exists oid e st d,
         db_get_by_flow_token (token_of_form form_token) t
         = Some (oid, e, st, d)
         /\ (d = None \/ d = Some EmptyString)
         /\ t1 = db_mark_paid (token_of_form form_token) (uuid_hex u) now t
         /\ tasks = [link_mail cfg e (uuid_hex u)]).
Proof.
  unfold flow_confirmation.
  destruct (nonempty (token_of_form form_token)); simpl negb; cbv iota;
    [|run_handler; intros [= <- <- <-]; auto].
  run_handler.
  destruct (flow_get_status _ _ _ _) as [s|e0]; simpl;
    [|intros [= <- <- <-]; auto].
  destruct (status_code_of s) as [st|e0]; simpl; [|intros [= <- <- <-]; auto].
  destruct (db_get_by_flow_token _ t) as [[[[oid e] st0] d]|] eqn:G; simpl;
    [|intros [= <- <- <-]; auto].
  destruct (st =? 2); simpl; [|intros [= <- <- <-]; auto].
  destruct d as [d|]; [destruct (nonempty d) eqn:Nd|]; simpl;
    intros [= <- <- <-].
  - right. left. exists oid, e, st0, d. auto.
  - right. right. exists oid, e, st0, (Some d). repeat split; auto.
    right. destruct d; [reflexivity | discriminate].
  - right. right. exists oid, e, st0, None. auto.
Qed.

Lemma flow_return_effect gw form_token t :
  snd (fst (serve (flow_return hmac_sha256_hexdigest cfg gw form_token) t)) = t.
Proof.
  unfold flow_return.
  destruct (nonempty (token_of_form form_token)); simpl negb; cbv iota;
    [|reflexivity].
  run_handler.
  destruct (flow_get_status _ _ _ _) as [s|e0]; simpl; [|reflexivity].
  destruct (status_code_of s) as [st|e0]; simpl; [|reflexivity].
  destruct (st =? 2); [reflexivity|]. now destruct (st =? 1).
Qed.

Lemma download_effect path_exists dl t :
  snd (fst (serve (download cfg path_exists dl) t)) = t.
Proof.
  unfold download. run_handler.
  destruct (db_get_by_download_token dl t) as [[[e st] f]|]; simpl;
    [|reflexivity].
  destruct (st =? 2); simpl; [|reflexivity].
  now destruct (path_exists _).
Qed.

(** *** The invariant *)

Lemma sound_create t i e c f now :
  sound t -> is_valid_email e = true -> ~ In i (map id t) ->
  sound (t ++ [mk_order i now e c f 1 None None]).
Proof.
  intros [Hn Hr] V Hnew. split.
  - rewrite map_app. apply NoDup_app; auto.
    + simpl. constructor; [intros []|constructor].
    + intros a Ha [<-|[]]. auto.
  - apply Forall_app. split; auto.
    constructor; [|constructor]. split; [exact V|]. left. simpl. auto.
Qed.

Lemma sound_mark t tok u now :
  sound t -> sound (db_mark_paid tok (uuid_hex u) now t).
Proof.
  intros [Hn Hr]. split.
  - unfold db_mark_paid. rewrite map_map.
    erewrite map_ext; [exact Hn|]. intros r.
    apply (mark_id tok (uuid_hex u) now r).
  - unfold db_mark_paid. apply Forall_forall. intros r' Hin.
    apply in_map_iff in Hin. destruct Hin as [r [<- Hin]].
    pose proof (proj1 (Forall_forall _ _) Hr r Hin) as [V S].
    destruct (mark_paid_where tok r); [|split; auto].
    split; [exact V|]. right. simpl. split; [reflexivity|].
    split; [discriminate|]. exists (uuid_hex u).
    split; [reflexivity | apply length_uuid_hex].
Qed.

Lemma table_after_sound rq t : sound t -> sound (table_after rq t).
Proof.
  intros H. unfold table_after. destruct rq as [gw u1 u2 now payload|gw u now ft|gw ft|pe dl]; simpl handle.
  - destruct (serve _ t) as [[r t1] tasks] eqn:S. simpl.
    destruct (pay_create_effect _ _ _ _ _ _ _ _ _ S)
      as [_ [[_ ->]|[e [tok [content [V [Hnew [-> _]]]]]]]]; auto.
    now apply sound_create.
  - destruct (serve _ t) as [[r t1] tasks] eqn:S. simpl.
    destruct (flow_confirmation_effect _ _ _ _ _ _ _ _ S)
      as [[-> _]|[[oid [e [st [d [_ [_ [-> _]]]]]]]|[oid [e [st [d [_ [_ [-> _]]]]]]]]];
      auto.
    now apply sound_mark.
  - now rewrite flow_return_effect.
  - now rewrite download_effect.
Qed.

Lemma serve_all_sound rqs : forall t, sound t -> sound (serve_all rqs t).
Proof.
  unfold serve_all. induction rqs as [|rq rqs IH]; simpl; auto.
  intros t H. apply IH. now apply table_after_sound.
Qed.

Lemma sound_init : sound db_init.
Proof. split; constructor. Qed.

Lemma find_exists {A} (p : A -> bool) (l : list A) x :
  In x l -> p x = true -> exists y, find p l = Some y.
Proof.
  induction l as [|z l IH]; simpl; [intros []|].
  intros [->|H] Hp.
  - rewrite Hp. eauto.
  - destruct (p z); eauto.
Qed.

Lemma has_download_token_spec dl r :
  has_download_token dl r = true <-> download_token r = Some dl.
Proof.
  unfold has_download_token. destruct (download_token r) as [d|].
  - rewrite String.eqb_eq. split; congruence.
  - split; discriminate.
Qed.

(** In a sound table a download token leads to a paid order. *)
Lemma sound_download_lookup t dl e st f :
  sound t -> db_get_by_download_token dl t = Some (e, st, f) ->
  st = 2 /\ is_valid_email e = true.
Proof.
  intros [_ Hr] H. unfold db_get_by_download_token in H.
  destruct (find _ t) as [r|] eqn:F; [|discriminate].
  simpl in H. injection H as <- <- _.
  apply find_some in F. destruct F as [Hin Hd].
  apply has_download_token_spec in Hd.
  destruct (proj1 (Forall_forall _ _) Hr r Hin) as [V [[_ [N _]]|[P _]]];
    [congruence | auto].
Qed.

(** In a sound table, the token of a row opens the download. *)
Lemma sound_token_downloads t r dl path_exists :
  sound t -> In r t -> download_token r = Some dl ->
  path_exists (PRODUCT_FILE cfg) = true ->
  serve (download cfg path_exists dl) t
  = (Ok (FileResponse (PRODUCT_FILE cfg) "application/zip"
                      (basename (PRODUCT_FILE cfg))), t, []).
Proof.
  intros Hs Hin Hd Hp.
  apply has_download_token_spec in Hd.
  destruct (find_exists _ _ _ Hin Hd) as [r' F].
  assert (L : db_get_by_download_token dl t = Some (email r', status r', flow_token r'))
    by (unfold db_get_by_download_token; now rewrite F).
  destruct (sound_download_lookup _ _ _ _ _ Hs L) as [P _].
  unfold download. run_handler. rewrite L. simpl. rewrite P. simpl.
  now rewrite Hp.
Qed.

Lemma flow_token_lookup_row tok t oid e st d :
  db_get_by_flow_token tok t = Some (oid, e, st, d) ->
  exists r, In r t /\ flow_token r = tok /\ email r = e
            /\ download_token r = d.
Proof.
  unfold db_get_by_flow_token. intros H.
  destruct (find _ t) as [r|] eqn:F; [|discriminate].
  simpl in H. injection H as _ <- _ <-.
  apply find_some in F. destruct F as [Hin Hf].
  exists r. repeat split; auto. now apply String.eqb_eq.
Qed.

End System.

(** The endpoints keep the order table sound: after any sequence of
    requests served from the empty table, the ids are pairwise
    distinct, every stored address passes [is_valid_email], and every
    order is either created, with neither download token nor payment
    date, or paid, with a payment date and a download token of 32
    characters. *)
Theorem endpoints_keep_table_sound :
  forall hmac lower repr cfg (rqs : list request),
    NoDup (map id (serve_all hmac lower repr cfg rqs db_init))
    /\ (forall r,
          In r (serve_all hmac lower repr cfg rqs db_init) ->
          is_valid_email (email r) = true
          /\ ((status r = 1 /\ download_token r = None /\ paid_at r = None)
              \/ (status r = 2 /\ paid_at r <> None
                  /\ exists d, download_token r = Some d
                               /\ String.length d = 32%nat))).
Proof.
  intros hmac lower repr cfg rqs.
  destruct (serve_all_sound hmac lower repr cfg rqs db_init sound_init)
    as [Hn Hr].
  split; [exact Hn|]. intros r Hin.
  exact (proj1 (Forall_forall _ _) Hr r Hin).
Qed.

(** Every request writes at most one statement: it leaves the table as
    it is, or appends one created order whose address is valid and
    whose id is new ([pay_create] only), or is one [db_mark_paid] with a
    freshly minted token ([flow_confirmation] only); [flow_return] and
    [download] never write, and no endpoint removes an order. *)
Theorem endpoints_write_one_statement :
  forall hmac lower repr cfg (rq : request) (t : table),
    (table_after hmac lower repr cfg rq t = t
     \/ (exists gw u1 u2 now payload e tok,
           rq = PayCreate gw u1 u2 now payload
           /\ is_valid_email e = true
           /\ ~ In (uuid_str u2) (map id t)
           /\ table_after hmac lower repr cfg rq t
              = t ++ [mk_order (uuid_str u2) now e (uuid_str u1) tok 1 None None])
     \/ (exists gw u now form_token,
           rq = FlowConfirmation gw u now form_token
           /\ table_after hmac lower repr cfg rq t
              = db_mark_paid (token_of_form form_token) (uuid_hex u) now t))
    /\ map id t
       = firstn (List.length t) (map id (table_after hmac lower repr cfg rq t)).
Proof.
  intros hmac lower repr cfg rq t.
  assert (Hid : forall t' : table,
             map id t = firstn (List.length t) (map id (t ++ t'))).
  { intros t'. rewrite map_app, <- (length_map id t).
    rewrite firstn_app, firstn_all, Nat.sub_diag. simpl.
    now rewrite app_nil_r. }
  assert (Hsame : map id t = firstn (List.length t) (map id t)).
  { rewrite <- (length_map id t). now rewrite firstn_all. }
  unfold table_after.
  destruct rq as [gw u1 u2 now payload|gw u now ft|gw ft|pe dl]; simpl handle.
  - destruct (serve _ t) as [[r t1] tasks] eqn:S. simpl.
    destruct (pay_create_effect _ _ _ _ _ _ _ _ _ _ _ _ _ S)
      as [_ [[_ ->]|[e [tok [content [V [Hnew [-> _]]]]]]]].
    + split; [now left | exact Hsame].
    + split; [|apply Hid]. right. left.
      exists gw, u1, u2, now, payload, e, tok. auto.
  - destruct (serve _ t) as [[r t1] tasks] eqn:S. simpl.
    assert (Hmark : forall tok dl now,
               map id t = firstn (List.length t) (map id (db_mark_paid tok dl now t))).
    { intros tok dl now'. unfold db_mark_paid. rewrite map_map.
      rewrite (map_ext _ id (fun x => mark_id tok dl now' x)). exact Hsame. }
    destruct (flow_confirmation_effect _ _ _ _ _ _ _ _ _ _ S)
      as [[-> _]|[[oid [e [st [d [_ [_ [-> _]]]]]]]|[oid [e [st [d [_ [_ [-> _]]]]]]]]].
    + split; [now left | exact Hsame].
    + split; [now left | exact Hsame].
    + split; [|apply Hmark]. right. right. exists gw, u, now, ft. auto.
  - rewrite flow_return_effect. split; [now left | exact Hsame].
  - rewrite download_effect. split; [now left | exact Hsame].
Qed.

(** On a table written by the endpoints, [download] never answers 403:
    a download token only ever leads to a paid order, so the answer is
    the file (200), 404 for a token that is not in use, or 500 when the
    product file is missing. *)
Theorem download_never_forbidden :
  forall hmac lower repr cfg (rqs : list request)
         (path_exists : string -> bool) (dl : string),
    http_status
      (fst (fst (serve (download cfg path_exists dl)
                       (serve_all hmac lower repr cfg rqs db_init)))) = 200
    \/ http_status
         (fst (fst (serve (download cfg path_exists dl)
                          (serve_all hmac lower repr cfg rqs db_init)))) = 404
    \/ http_status
         (fst (fst (serve (download cfg path_exists dl)
                          (serve_all hmac lower repr cfg rqs db_init)))) = 500.
Proof.
  intros hmac lower repr cfg rqs path_exists dl.
  pose proof (serve_all_sound hmac lower repr cfg rqs db_init sound_init) as Hs.
  unfold download. run_handler.
  destruct (db_get_by_download_token dl _) as [[[e st] f]|] eqn:L; simpl.
  - destruct (sound_download_lookup _ _ _ _ _ Hs L) as [-> _]. simpl.
    destruct (path_exists _); simpl; auto.
  - auto.
Qed.

(** The link that is mailed works: when [flow_confirmation], on a table
    written by the endpoints, schedules a notification, the mail goes
    to an address that passes [is_valid_email] and carries the link to
    a download token for which [download], on the table the callback
    leaves, returns the product file (provided the file exists). *)
Theorem mailed_link_downloads :
  forall hmac lower repr cfg (rqs : list request) gw (u : N) (now : string)
         (form_token : option string) r t1 tasks task
         (path_exists : string -> bool),
    serve (flow_confirmation hmac cfg gw u now form_token)
          (serve_all hmac lower repr cfg rqs db_init)
    = (r, t1, tasks) ->
    In task tasks ->
    path_exists (PRODUCT_FILE cfg) = true ->
    exists dl,
      task = link_mail cfg (to_email task) dl
      /\ is_valid_email (to_email task) = true
      /\ tasks = [task]
      /\ serve (download cfg path_exists dl) t1
         = (Ok (FileResponse (PRODUCT_FILE cfg) "application/zip"
                             (basename (PRODUCT_FILE cfg))), t1, []).
Proof.
  intros hmac lower repr cfg rqs gw u now ft r t1 tasks task pe S Hin Hp.
  pose proof (serve_all_sound hmac lower repr cfg rqs db_init sound_init) as Hs.
  destruct (flow_confirmation_effect _ _ _ _ _ _ _ _ _ _ S)
    as [[_ ->]|[[oid [e [st [d [G [Nd [-> ->]]]]]]]|[oid [e [st [d [G [Hd [-> ->]]]]]]]]].
  - destruct Hin.
  - destruct Hin as [<-|[]].
    destruct (flow_token_lookup_row _ _ _ _ _ _ G) as [x [Hx [_ [He Hdx]]]].
    exists d. split; [reflexivity|]. simpl to_email.
    destruct (proj1 (Forall_forall _ _) (proj2 Hs) x Hx) as [V _].
    split; [congruence|]. split; [reflexivity|].
    now apply (sound_token_downloads cfg _ x).
  - destruct Hin as [<-|[]].
    destruct (flow_token_lookup_row _ _ _ _ _ _ G) as [x [Hx [Hf [He Hdx]]]].
    destruct (proj1 (Forall_forall _ _) (proj2 Hs) x Hx) as [V Hshape].
    assert (D : download_token x = None).
    { destruct Hd as [-> | ->]; [exact Hdx|].
      destruct Hshape as [[_ [N _]]|[_ [_ [d' [E L]]]]]; [congruence|].
      rewrite Hdx in E. injection E as <-. discriminate. }
    exists (uuid_hex u). split; [reflexivity|]. simpl to_email.
    split; [congruence|]. split; [reflexivity|].
    apply (sound_token_downloads cfg _
             (mark (token_of_form ft) (uuid_hex u) now x)).
    + now apply sound_mark.
    + unfold db_mark_paid. apply in_map_iff. exists x. split; auto.
    + unfold mark, mark_paid_where, has_flow_token.
      rewrite Hf, String.eqb_refl, D. simpl. now rewrite orb_true_r.
    + exact Hp.
Qed.

Lemma mailed_link_downloads_witness :
  exists dl,
    link_mail GatewayFacts.shop "buyer@example.com"
              "000000000000000000000000000000ff"
    = link_mail GatewayFacts.shop
                (to_email (link_mail GatewayFacts.shop "buyer@example.com"
                                     "000000000000000000000000000000ff")) dl
    /\ is_valid_email
         (to_email (link_mail GatewayFacts.shop "buyer@example.com"
                              "000000000000000000000000000000ff")) = true
    /\ [link_mail GatewayFacts.shop "buyer@example.com"
                  "000000000000000000000000000000ff"]
       = [link_mail GatewayFacts.shop "buyer@example.com"
                    "000000000000000000000000000000ff"]
    /\ serve (download GatewayFacts.shop (fun _ => true) dl) buyer_paid_table
       = (Ok (FileResponse (PRODUCT_FILE GatewayFacts.shop) "application/zip"
                           (basename (PRODUCT_FILE GatewayFacts.shop))),
          buyer_paid_table, []).
Proof.
  apply (mailed_link_downloads
           GatewayFacts.tag lower_ascii no_repr GatewayFacts.shop
           [PayCreate session_gateway 1 2 "t0"
                      [("email", JStr "buyer@example.com")]]
           (GatewayFacts.says_status 2) 255 "t1" (Some "tok")
           (Ok (JSONResponse ok_body 200)) buyer_paid_table
           [link_mail GatewayFacts.shop "buyer@example.com"
                      "000000000000000000000000000000ff"]
           (link_mail GatewayFacts.shop "buyer@example.com"
                      "000000000000000000000000000000ff")
           (fun _ => true)).
  - vm_compute. reflexivity.
  - left. reflexivity.
  - reflexivity.
Defined.

(** A 200 from [pay_create] means that exactly one order was stored:
    the table is the old one followed by one created order under the
    second uuid drawn, with an address that passes [is_valid_email];
    nothing is scheduled. *)
Theorem pay_create_ok_stores_one_order :
  forall hmac lower repr cfg gw (u1 u2 : N) (now : string)
         (payload : list (string * json)) (t t1 : table) resp tasks,
    serve (pay_create hmac lower repr cfg gw u1 u2 now payload) t
    = (Ok resp, t1, tasks) ->
    exists e tok content,
      t1 = t ++ [mk_order (uuid_str u2) now e (uuid_str u1) tok 1 None None]
      /\ is_valid_email e = true
      /\ ~ In (uuid_str u2) (map id t)
      /\ resp = JSONResponse content 200
      /\ tasks = [].
Proof.
  intros hmac lower repr cfg gw u1 u2 now payload t t1 resp tasks S.
  destruct (pay_create_effect _ _ _ _ _ _ _ _ _ _ _ _ _ S)
    as [-> [[R _]|[e [tok [content [V [Hnew [-> [= ->]]]]]]]]];
    [discriminate|].
  exists e, tok, content. auto.
Qed.

Lemma pay_create_ok_stores_one_order_witness :
  exists e tok content,
    buyer_table
    = db_init ++ [mk_order (uuid_str 2) "t0" e (uuid_str 1) tok 1 None None]
    /\ is_valid_email e = true
    /\ ~ In (uuid_str 2) (map id db_init)
    /\ JSONResponse
         (JDict [("ok", JBool true);
                 ("checkoutUrl", JStr "https://flow.example/pay?token=tok");
                 ("token", JStr "tok")]) 200
       = JSONResponse content 200
    /\ @nil email_task = [].
Proof.
  apply (pay_create_ok_stores_one_order
           GatewayFacts.tag lower_ascii no_repr GatewayFacts.shop
           session_gateway 1 2 "t0" [("email", JStr "buyer@example.com")]
           db_init buyer_table).
  vm_compute. reflexivity.
Defined.

(** [pay_create] checks its input before it turns to the gateway: a
    payload without [email], or with one that is null, empty, zero or
    false, is answered 400; a number, [true] or a non-empty container
    as [email] makes the handler fail ([AttributeError], answered 500);
    a valid address while [PUBLIC_BASE_URL] is not set is answered 500.
    In each case nothing is written, whatever the gateway would say. *)
Theorem pay_create_validates_before_gateway :
  forall hmac lower repr cfg gw (u1 u2 : N) (now : string)
         (payload : list (string * json)) (t : table),
    lower EmptyString = EmptyString ->
    ((assoc "email" payload = None
      \/ exists v, assoc "email" payload = Some v /\ truthy v = false) ->
     serve (pay_create hmac lower repr cfg gw u1 u2 now payload) t
     = (Raise (HTTPException 400 "Email inválido o faltante"), t, []))
    /\ (forall v,
          assoc "email" payload = Some v -> truthy v = true ->
          match v with
          | JStr _ => True
          | _ => serve (pay_create hmac lower repr cfg gw u1 u2 now payload) t
                 = (Raise (PyError "AttributeError"), t, [])
          end)
    /\ (forall s,
          assoc "email" payload = Some (JStr s) ->
          is_valid_email (lower (strip s)) = true ->
          PUBLIC_BASE_URL cfg = EmptyString ->
          http_status
            (fst (fst (serve (pay_create hmac lower repr cfg gw u1 u2 now payload) t)))
          = 500
          /\ snd (fst (serve (pay_create hmac lower repr cfg gw u1 u2 now payload) t))
             = t).
Proof.
  intros hmac lower repr cfg gw u1 u2 now payload t Hlow.
  split; [|split].
  - intros H. unfold pay_create, email_field. run_handler.
    destruct H as [->|[v [-> Hv]]]; simpl; [|rewrite Hv; simpl];
      change (strip "") with ""; rewrite Hlow; reflexivity.
  - intros v Hv Ht. unfold pay_create, email_field. run_handler.
    rewrite Hv. simpl. rewrite Ht.
    destruct v; try exact I; reflexivity.
  - intros s Hs Hv Hb. unfold pay_create, email_field. run_handler.
    rewrite Hs. simpl.
    destruct (nonempty s) eqn:Ns.
    + simpl. rewrite Hv, Hb. simpl. auto.
    + destruct s; [|discriminate]. simpl.
      change (strip "") with "" in Hv. rewrite Hlow in Hv. discriminate.
Qed.

Lemma pay_create_validates_before_gateway_witness :
  serve (pay_create GatewayFacts.tag lower_ascii no_repr GatewayFacts.shop
                    session_gateway 1 2 "t0" [("email", JNull)]) buyer_table
  = (Raise (HTTPException 400 "Email inválido o faltante"), buyer_table, []).
Proof.
  apply (proj1 (pay_create_validates_before_gateway
                  GatewayFacts.tag lower_ascii no_repr GatewayFacts.shop
                  session_gateway 1 2 "t0" [("email", JNull)] buyer_table
                  eq_refl)).
  right. exists JNull. split; reflexivity.
Defined.

(** A status answer without the key [status] counts as status 0: the
    return page shows "not completed" and the confirmation callback is
    answered 200 without writing.  A status answer that is JSON but not
    an object makes both handlers fail ([AttributeError], answered 500),
    nothing written. *)
Theorem missing_status_counts_as_not_paid :
  forall hmac cfg gw (u : N) (now : string) (form_token : option string)
         (t : table) (body : json),
    nonempty (token_of_form form_token) = true ->
    flow_get_status hmac cfg gw (token_of_form form_token) = Ok body ->
    match body with
    | JDict d =>
      assoc "status" d = None ->
      serve (flow_return hmac cfg gw form_token) t
      = (Ok (JSONResponse
               (message_body false "Pago no completado (rechazado/anulado).")
               200), t, [])
      /\ exists content,
          serve (flow_confirmation hmac cfg gw u now form_token) t
          = (Ok (JSONResponse content 200), t, [])
    | _ =>
      serve (flow_return hmac cfg gw form_token) t
      = (Raise (PyError "AttributeError"), t, [])
      /\ serve (flow_confirmation hmac cfg gw u now form_token) t
         = (Raise (PyError "AttributeError"), t, [])
    end.
Proof.
  intros hmac cfg gw u now ft t body Htok Hgw.
  unfold flow_return, flow_confirmation. rewrite Htok. simpl negb. cbv iota.
  run_handler. rewrite Hgw.
  destruct body as [| | | | |d]; try (split; reflexivity).
  intros Hd. unfold status_code_of. simpl. rewrite Hd. simpl.
  split; [reflexivity|].
  destruct (db_get_by_flow_token _ t) as [[[[oid e] st] dt]|]; eauto.
Qed.

Lemma missing_status_counts_as_not_paid_witness :
  serve (flow_return GatewayFacts.tag GatewayFacts.shop
                     (GatewayFacts.answers 200 "{}" (Some (JDict [])))
                     (Some "tok")) buyer_table
  = (Ok (JSONResponse
           (message_body false "Pago no completado (rechazado/anulado).")
           200), buyer_table, []).
Proof.
  apply (proj1 (missing_status_counts_as_not_paid
                  GatewayFacts.tag GatewayFacts.shop
                  (GatewayFacts.answers 200 "{}" (Some (JDict [])))
                  1 "t1" (Some "tok") buyer_table (JDict [])
                  eq_refl eq_refl eq_refl)).
Defined.

(** A notification scheduled by the callback, on a table written by
    the endpoints, is never dropped for want of a recipient: when SMTP
    host, user and password are all set, [send_email] hands it over,
    from the configured sender to the stored address; when one of them
    is missing, it only logs it. *)
Theorem scheduled_mail_is_sent_or_logged :
  forall hmac lower repr cfg (rqs : list request) gw (u : N) (now : string)
         (form_token : option string) r t1 tasks task,
    serve (flow_confirmation hmac cfg gw u now form_token)
          (serve_all hmac lower repr cfg rqs db_init)
    = (r, t1, tasks) ->
    In task tasks ->
    (nonempty (SMTP_HOST cfg) = true -> nonempty (SMTP_USER cfg) = true ->
     nonempty (SMTP_PASS cfg) = true ->
     send_email cfg task
     = Sent (FROM_EMAIL cfg) (to_email task) mail_subject (body task))
    /\ (SMTP_HOST cfg = EmptyString \/ SMTP_USER cfg = EmptyString
        \/ SMTP_PASS cfg = EmptyString ->
        exists log, send_email cfg task = Skipped log).
Proof.
  intros hmac lower repr cfg rqs gw u now ft r t1 tasks task S Hin.
  pose proof (serve_all_sound hmac lower repr cfg rqs db_init sound_init) as Hs.
  assert (Hshape : exists e dl, task = link_mail cfg e dl
                                /\ is_valid_email e = true).
  { destruct (flow_confirmation_effect _ _ _ _ _ _ _ _ _ _ S)
      as [[_ ->]|[[oid [e [st [d [G [_ [_ ->]]]]]]]|[oid [e [st [d [G [_ [_ ->]]]]]]]]].
    - destruct Hin.
    - destruct Hin as [<-|[]].
      destruct (flow_token_lookup_row _ _ _ _ _ _ G) as [x [Hx [_ [He _]]]].
      destruct (proj1 (Forall_forall _ _) (proj2 Hs) x Hx) as [V _].
      exists e, d. split; [reflexivity | congruence].
    - destruct Hin as [<-|[]].
      destruct (flow_token_lookup_row _ _ _ _ _ _ G) as [x [Hx [_ [He _]]]].
      destruct (proj1 (Forall_forall _ _) (proj2 Hs) x Hx) as [V _].
      exists e, (uuid_hex u). split; [reflexivity | congruence]. }
  destruct Hshape as [e [dl [-> V]]].
  assert (Ne : nonempty e = true).
  { unfold is_valid_email in V. now apply andb_true_iff in V. }
  unfold send_email. simpl. rewrite Ne. simpl. split.
  - intros -> -> ->. reflexivity.
  - intros H.
    destruct (SMTP_HOST cfg), (SMTP_USER cfg), (SMTP_PASS cfg); simpl; eauto.
    destruct H as [H|[H|H]]; discriminate.
Qed.

Lemma scheduled_mail_is_sent_or_logged_witness :
  send_email GatewayFacts.shop
             (link_mail GatewayFacts.shop "buyer@example.com"
                        "000000000000000000000000000000ff")
  = Sent "shop@example.cl" "buyer@example.com" mail_subject
         (body (link_mail GatewayFacts.shop "buyer@example.com"
                          "000000000000000000000000000000ff")).
Proof.
  assert (S : serve (flow_confirmation GatewayFacts.tag GatewayFacts.shop
                       (GatewayFacts.says_status 2) 255 "t1" (Some "tok"))
                    (serve_all GatewayFacts.tag lower_ascii no_repr
                       GatewayFacts.shop
                       [PayCreate session_gateway 1 2 "t0"
                                  [("email", JStr "buyer@example.com")]]
                       db_init)
              = (Ok (JSONResponse ok_body 200), buyer_paid_table,
                 [link_mail GatewayFacts.shop "buyer@example.com"
                            "000000000000000000000000000000ff"]))
    by (vm_compute; reflexivity).
  exact (proj1 (scheduled_mail_is_sent_or_logged
                  GatewayFacts.tag lower_ascii no_repr GatewayFacts.shop
                  _ _ _ _ _ _ _ _ _ S (or_introl eq_refl))
               eq_refl eq_refl eq_refl).
Defined.

(** A failed status check surfaces unchanged from both handlers that
    ask for it, before the table is read: whatever [flow_get_status]
    raises for the token is what [flow_return] and [flow_confirmation]
    raise, an [HTTPException] among these always with status 400, and
    nothing is written or scheduled. *)
Theorem status_check_errors_surface :
  forall hmac cfg gw (u : N) (now : string) (form_token : option string)
         (t : table) (e : exn),
    nonempty (token_of_form form_token) = true ->
    flow_get_status hmac cfg gw (token_of_form form_token) = Raise e ->
    serve (flow_return hmac cfg gw form_token) t = (Raise e, t, [])
    /\ serve (flow_confirmation hmac cfg gw u now form_token) t = (Raise e, t, [])
    /\ match e with
       | HTTPException code _ => code = 400
       | PyError _ => True
       end.
Proof.
  intros hmac cfg gw u now ft t e Htok Hgw.
  split; [|split].
  - unfold flow_return. rewrite Htok. simpl negb. cbv iota. run_handler.
    now rewrite Hgw.
  - unfold flow_confirmation. rewrite Htok. simpl negb. cbv iota. run_handler.
    now rewrite Hgw.
  - destruct e as [code detail|cls]; [|exact I].
    eapply GatewayFacts.flow_get_status_raises_400_only; eauto.
Qed.

Lemma status_check_errors_surface_witness :
  serve (flow_return GatewayFacts.tag GatewayFacts.shop
                     (GatewayFacts.answers 502 "Bad Gateway" None) (Some "tok"))
        buyer_table
  = (Raise (HTTPException 400 "Flow status error: Bad Gateway"), buyer_table, []).
Proof.
  apply (proj1 (status_check_errors_surface
                  GatewayFacts.tag GatewayFacts.shop
                  (GatewayFacts.answers 502 "Bad Gateway" None)
                  1 "t1" (Some "tok") buyer_table
                  (HTTPException 400 "Flow status error: Bad Gateway")
                  eq_refl eq_refl)).
Defined.

End SystemFacts.

Example strip_ex :
  Py.strip (String (Py.byte 9) "  tok en " ++ String (Py.byte 194) (String (Py.byte 160) ""))
  = "tok en".
Proof. vm_compute. reflexivity. Qed.
Example int_ex : Py.int (Py.JStr " -1_0 ") = Py.Ok (-10) /\ Py.int (Py.JStr "1__0") = Py.Raise (Py.PyError "ValueError")
  /\ Py.int (Py.JStr "_1") = Py.Raise (Py.PyError "ValueError") /\ Py.int (Py.JStr "1_") = Py.Raise (Py.PyError "ValueError")
  /\ Py.int (Py.JStr "+") = Py.Raise (Py.PyError "ValueError") /\ Py.int (Py.JStr "007") = Py.Ok 7.
Proof. vm_compute. repeat split. Qed.
Example uuid_ex : Py.uuid_str 255 = "00000000-0000-0000-0000-0000000000ff" /\ Py.uuid_hex (2^128 - 1) = "ffffffffffffffffffffffffffffffff".
Proof. vm_compute. split; reflexivity. Qed.
Example base_ex : Py.basename "products/pack_ia_pymes_2026.zip" = "pack_ia_pymes_2026.zip" /\ Py.str_of_int 350 = "350" /\ Py.str_of_int (-5) = "-5" /\ Py.str_of_int 0 = "0".
Proof. vm_compute. repeat split. Qed.
Example sorted_ex :
  Signer.sorted [("b", Signer.VInt 2); ("s", Signer.VStr "x"); ("a", Signer.VInt 1); ("B", Signer.VStr "y")]
  = [("B", Signer.VStr "y"); ("a", Signer.VInt 1); ("b", Signer.VInt 2); ("s", Signer.VStr "x")].
Proof. reflexivity. Qed.
Example to_sign_ex :
  Signer.to_sign (Signer.sorted [("b", Signer.VInt 2); ("a", Signer.VInt 1)]) = "a1b2".
Proof. reflexivity. Qed.
Example email_ex :
  Utils.is_valid_email "cliente@correo.cl" = true /\ Utils.is_valid_email "a@b" = false
  /\ Utils.is_valid_email "a@b.c.d" = true /\ Utils.is_valid_email "a@.c" = false
  /\ Utils.is_valid_email "a@b." = false /\ Utils.is_valid_email "a b@c.d" = false
  /\ Utils.is_valid_email "a@b@c.d" = false /\ Utils.is_valid_email "@b.c" = false
  /\ Utils.is_valid_email ("a@b.c" ++ String (Py.byte 10) "") = true
  /\ Utils.is_valid_email "" = false /\ Utils.is_valid_email "a@b..c" = true.
Proof. vm_compute. repeat split. Qed.
Example pay_create_ex :
  App.serve
    (App.pay_create GatewayFacts.tag AppFacts.lower_ascii AppFacts.no_repr
       GatewayFacts.shop
       (GatewayFacts.answers 200 "json"
          (Some (Py.JDict [("url", Py.JStr "https://flow.example/pay");
                           ("token", Py.JStr "tok")])))
       1 2 "t0" [("email", Py.JStr " Cliente@Correo.cl ")])
    Db.db_init
  = (Py.Ok (App.JSONResponse
              (Py.JDict [("ok", Py.JBool true);
                         ("checkoutUrl", Py.JStr "https://flow.example/pay?token=tok");
                         ("token", Py.JStr "tok")]) 200),
     [Db.mk_order "00000000-0000-0000-0000-000000000002" "t0" "cliente@correo.cl"
                  "00000000-0000-0000-0000-000000000001" "tok" 1 None None],
     []).
Proof. vm_compute. reflexivity. Qed.
Example pay_create_bad_email_ex :
  App.http_status (fst (fst (App.serve
    (App.pay_create GatewayFacts.tag AppFacts.lower_ascii AppFacts.no_repr
       GatewayFacts.shop GatewayFacts.unreachable 1 2 "t0" [("email", Py.JStr "nobody")])
    Db.db_init))) = 400.
Proof. vm_compute. reflexivity. Qed.
